(** * Paradigm SDK: the request-dispatch core of [paradigm_sdk/client.py]

    A shallow embedding of [ClientConfig], [ParadigmClient] and
    [RateLimiter] and the properties of their rate limiting, retry,
    response classification and input validation.

    Python values are modelled as follows.
    - Time ([time.time()], [time.sleep], [asyncio.sleep]) is a rational
      number of seconds; a sleep advances the clock by exactly its argument.
    - A decoded JSON document is a [json] tree; a Python [dict] with string
      keys is an association list with distinct keys, read from the front.
    - A raised exception is the [Raise] case of [result]; the state reached
      when an exception is raised is kept, as in Python.
    - Everything observable that a call does (entering the rate limiter,
      sleeping, issuing an HTTP request) is appended to an event list. *)

From Stdlib Require Import ZArith QArith Qreduction List String Ascii Bool Lia DecimalString.
From Stdlib Require Import Sorted Lqa.
Import ListNotations.
Local Open Scope string_scope.
Local Open Scope list_scope.
Local Open Scope Z_scope.

Set Implicit Arguments.
Set Warnings "-register-all".

(** ** Python values *)

(** The result of [json.loads]: [JNull] is [None], [JArr] a [list],
    [JObj] a [dict]. *)
Inductive json : Type :=
| JNull
| JBool (b : bool)
| JInt (n : Z)
| JFloat (q : Q)
| JStr (s : string)
| JArr (items : list json)
| JObj (fields : list (string * json)).

(** Python truthiness, as used by [not data.get("success", False)]. *)
Definition truthy (v : json) : bool :=
  match v with
  | JNull => false
  | JBool b => b
  | JInt n => negb (n =? 0)
  | JFloat q => negb (Qeq_bool q 0)
  | JStr s => negb (String.eqb s EmptyString)
  | JArr items => match items with [] => false | _ :: _ => true end
  | JObj fields => match fields with [] => false | _ :: _ => true end
  end.

Fixpoint lookup (key : string) (fields : list (string * json)) : option json :=
  match fields with
  | [] => None
  | (k, v) :: rest => if String.eqb k key then Some v else lookup key rest
  end.

(** Why a transport exchange failed before any HTTP status was received. *)
Inductive transport_error : Type :=
| ConnectError (detail : string)
| TimeoutException (detail : string)
| OtherTransportError (detail : string).

(** The exceptions the core raises or lets through.  [exceptions.py] is not
    among the sources, so an SDK exception records the positional arguments
    given at its [raise] site: [ParadigmError msg None] is
    [ParadigmError(msg)], [ParadigmError msg (Some c)] is
    [ParadigmError(msg, c)]. *)
Inductive exn : Type :=
| NetworkError (msg : string)
| RateLimitError (msg : string)
| ParadigmError (msg : json) (code : option json)
| ValidationError (msg : string)
| AttributeError (detail : string)
| IndexError (detail : string)
| TypeError (detail : string)
| TransportError (e : transport_error)
| UnicodeDecodeError (detail : string).

Inductive result (A : Type) : Type :=
| Ok (a : A)
| Raise (e : exn).
Arguments Ok {A} a.
Arguments Raise {A} e.

Definition rbind {A B} (r : result A) (k : A -> result B) : result B :=
  match r with
  | Ok a => k a
  | Raise e => Raise e
  end.

Infix "+s+" := String.append (at level 60, right associativity).

Declare Scope py_scope.
Delimit Scope py_scope with py.
Notation "x <-- c1 ;; c2" := (rbind c1 (fun x => c2))
  (at level 100, c1 at next level, right associativity) : py_scope.
Local Open Scope py_scope.

(** [d.get(key, default)]: only a [dict] has the method. *)
Definition py_get (d : json) (key : string) (default : json) : result json :=
  match d with
  | JObj fields =>
      Ok (match lookup key fields with Some v => v | None => default end)
  | _ => Raise (AttributeError "get")
  end.

(** ** Response Interpreter *)

(** What [response.json()] does: it returns the decoded document, or raises
    [json.JSONDecodeError], or raises something else, as it does with
    [UnicodeDecodeError] on a body that is not valid UTF-8. *)
Inductive decoding : Type :=
| Decoded (data : json)
| JSONDecodeError
| DecodeRaised (e : exn).

(** An [httpx.Response] as [_handle_response] uses it: the status code, the
    body text, and what [response.json()] does. *)
Record Response : Type := mkResponse {
  status_code : Z;
  text : string;
  json_body : decoding
}.

(** The [except] clause names [json.JSONDecodeError] only: any other
    exception of [response.json()] leaves the method as it is. *)
Definition _handle_response (response : Response) : result json :=
  match json_body response with
  | JSONDecodeError =>
      Raise (NetworkError ("Invalid JSON response: " +s+ text response))
  | DecodeRaised e => Raise e
  | Decoded data =>
      if status_code response =? 429 then
        Raise (RateLimitError "Rate limit exceeded")
      else if status_code response >=? 400 then
        err <-- py_get data "error" (JObj []) ;;
        error_msg <-- py_get err "message" (JStr "Unknown error") ;;
        err' <-- py_get data "error" (JObj []) ;;
        error_code <-- py_get err' "code" (JStr "UNKNOWN") ;;
        Raise (ParadigmError error_msg (Some error_code))
      else
        success <-- py_get data "success" (JBool false) ;;
        if negb (truthy success) then
          err <-- py_get data "error" (JObj []) ;;
          error_msg <-- py_get err "message" (JStr "Request failed") ;;
          Raise (ParadigmError error_msg None)
        else
          py_get data "data" (JObj [])
  end.

(** ** Client state and the effects of a call *)

Record ClientConfig : Type := mkClientConfig {
  base_url : string;
  api_key : option string;
  timeout : Q;
  retries : Z;
  network : string;
  rate_limit_requests : Z;
  rate_limit_window : Z
}.

(** [RateLimiter]: [calls] holds the recorded timestamps, oldest first. *)
Record RateLimiter : Type := mkRateLimiter {
  requests : Z;
  window : Z;
  calls : list Q
}.

Definition RateLimiter__init__ (requests window : Z) : RateLimiter :=
  mkRateLimiter requests window [].

(** What [_setup_http_client] passes to [httpx.Client] and
    [httpx.AsyncClient]. *)
Record HttpClient : Type := mkHttpClient {
  client_base_url : string;
  client_headers : list (string * string);
  client_timeout : Q
}.

Record ParadigmClient : Type := mkParadigmClient {
  config : ClientConfig;
  _client : HttpClient;
  _async_client : HttpClient;
  _rate_limiter : RateLimiter
}.

(** The arguments of [request(method=, url=, params=, json=)]. *)
Record Request : Type := mkRequest {
  method : string;
  url : string;
  params : option json;
  json_data : option json
}.

Inductive http_outcome : Type :=
| Failed (e : transport_error)
| Replied (response : Response).

(** The remote side: given a request and the number of requests it has
    already received, how long the exchange takes and how it ends. *)
Definition transport : Type := Request -> nat -> Q * http_outcome.

Inductive event : Type :=
| LimiterEntered (now : Q)
| Slept (secs : Q)
| AsyncSlept (secs : Q)
| Requested (req : Request) (attempt : Z)
| AsyncRequested (req : Request) (attempt : Z).

Record world : Type := mkWorld {
  clock : Q;
  sent : nat;
  self : ParadigmClient
}.

(** A computation reads and updates the world, returns or raises, and
    emits events. *)
Definition M (A : Type) : Type := world -> result A * world * list event.

Definition ret {A} (a : A) : M A := fun w => (Ok a, w, []).

Definition raise {A} (e : exn) : M A := fun w => (Raise e, w, []).

Definition bind {A B} (m : M A) (k : A -> M B) : M B := fun w =>
  match m w with
  | (Ok a, w1, evs1) =>
      match k a w1 with
      | (r, w2, evs2) => (r, w2, evs1 ++ evs2)
      end
  | (Raise e, w1, evs1) => (Raise e, w1, evs1)
  end.

Definition lift {A} (r : result A) : M A := fun w => (r, w, []).

Notation "x <- c1 ;; c2" := (bind c1 (fun x => c2))
  (at level 100, c1 at next level, right associativity) : py_scope.
Notation "c1 ;; c2" := (bind c1 (fun _ => c2))
  (at level 100, right associativity) : py_scope.

Definition emit (e : event) : M unit := fun w => (Ok tt, w, [e]).

Definition time_time : M Q := fun w => (Ok (clock w), w, []).

(** The world after [secs] more seconds. *)
Definition elapse (w : world) (secs : Q) : world :=
  mkWorld (Qred (clock w + secs)) (sent w) (self w).

(** The world after the remote side has received one more request. *)
Definition received (w : world) : world :=
  mkWorld (clock w) (S (sent w)) (self w).

Definition advance (secs : Q) : M unit := fun w => (Ok tt, elapse w secs, []).

Definition time_sleep (secs : Q) : M unit :=
  emit (Slept secs) ;; advance secs.

Definition asyncio_sleep (secs : Q) : M unit :=
  emit (AsyncSlept secs) ;; advance secs.

Definition get_self : M ParadigmClient := fun w => (Ok (self w), w, []).

(** The world after [self._rate_limiter.calls = cs]. *)
Definition with_calls (w : world) (cs : list Q) : world :=
  let c := self w in
  let rl := _rate_limiter c in
  mkWorld (clock w) (sent w)
    (mkParadigmClient (config c) (_client c) (_async_client c)
       (mkRateLimiter (requests rl) (window rl) cs)).

Definition set_calls (cs : list Q) : M unit := fun w =>
  (Ok tt, with_calls w cs, []).

Definition Qlt_bool (x y : Q) : bool := negb (Qle_bool y x).

(** [xs[0]] *)
Definition index0 (xs : list Q) : M Q :=
  match xs with
  | [] => raise (IndexError "list index out of range")
  | x :: _ => ret x
  end.

(** ** Rate Limiter *)

Definition wait_if_needed : M unit :=
  now <- time_time ;;
  emit (LimiterEntered now) ;;
  c <- get_self ;;
  let rl := _rate_limiter c in
  let kept :=
    filter (fun call_time => Qlt_bool (now - call_time) (inject_Z (window rl)))
           (calls rl) in
  set_calls kept ;;
  (if Z.of_nat (List.length kept) >=? requests rl then
     oldest <- index0 kept ;;
     let sleep_time := (inject_Z (window rl) - (now - oldest))%Q in
     if Qlt_bool 0 sleep_time then time_sleep sleep_time else ret tt
   else ret tt) ;;
  set_calls (kept ++ [now]).

Definition async_wait_if_needed : M unit :=
  now <- time_time ;;
  emit (LimiterEntered now) ;;
  c <- get_self ;;
  let rl := _rate_limiter c in
  let kept :=
    filter (fun call_time => Qlt_bool (now - call_time) (inject_Z (window rl)))
           (calls rl) in
  set_calls kept ;;
  (if Z.of_nat (List.length kept) >=? requests rl then
     oldest <- index0 kept ;;
     let sleep_time := (inject_Z (window rl) - (now - oldest))%Q in
     if Qlt_bool 0 sleep_time then asyncio_sleep sleep_time else ret tt
   else ret tt) ;;
  set_calls (kept ++ [now]).

(** ** Request Dispatcher *)

(** [range(n)] *)
Definition py_range (n : Z) : list Z := map Z.of_nat (seq 0 (Z.to_nat n)).

(** [str(n)] for an [int]. *)
Definition str_of_int (n : Z) : string := NilZero.string_of_int (Z.to_int n).

(** [str(e)] for a transport exception. *)
Definition str_of_error (e : transport_error) : string :=
  match e with
  | ConnectError d => d
  | TimeoutException d => d
  | OtherTransportError d => d
  end.

Section Dispatcher.

Variable remote : transport.

(** [self._client.request(...)]: the exchange takes its time and the
    remote side has seen one more request. *)
Definition client_request (req : Request) (attempt : Z) : M http_outcome :=
  fun w =>
    let '(elapsed, out) := remote req (sent w) in
    (Ok out, received (elapse w elapsed), [Requested req attempt]).

(** [await self._async_client.request(...)] *)
Definition async_client_request (req : Request) (attempt : Z)
  : M http_outcome :=
  fun w =>
    let '(elapsed, out) := remote req (sent w) in
    (Ok out, received (elapse w elapsed), [AsyncRequested req attempt]).

(** The body of [for attempt in range(self.config.retries + 1)]; falling
    off the end of the loop returns [None]. *)
Fixpoint _make_request_loop (req : Request) (attempts : list Z) : M json :=
  match attempts with
  | [] => ret JNull
  | attempt :: rest =>
      out <- client_request req attempt ;;
      match out with
      | Replied response => lift (_handle_response response)
      | Failed (OtherTransportError d) =>
          raise (TransportError (OtherTransportError d))
      | Failed e =>
          c <- get_self ;;
          if attempt =? retries (config c) then
            raise (NetworkError
                     ("Request failed after " +s+ str_of_int (retries (config c))
                      +s+ " retries: " +s+ str_of_error e))
          else
            let wait_time := 2 ^ attempt in
            time_sleep (inject_Z wait_time) ;;
            _make_request_loop req rest
      end
  end.

Definition _make_request (req : Request) : M json :=
  wait_if_needed ;;
  c <- get_self ;;
  _make_request_loop req (py_range (retries (config c) + 1)).

Fixpoint _make_async_request_loop (req : Request) (attempts : list Z)
  : M json :=
  match attempts with
  | [] => ret JNull
  | attempt :: rest =>
      out <- async_client_request req attempt ;;
      match out with
      | Replied response => lift (_handle_response response)
      | Failed (OtherTransportError d) =>
          raise (TransportError (OtherTransportError d))
      | Failed e =>
          c <- get_self ;;
          if attempt =? retries (config c) then
            raise (NetworkError
                     ("Request failed after " +s+ str_of_int (retries (config c))
                      +s+ " retries: " +s+ str_of_error e))
          else
            let wait_time := 2 ^ attempt in
            asyncio_sleep (inject_Z wait_time) ;;
            _make_async_request_loop req rest
      end
  end.

Definition _make_async_request (req : Request) : M json :=
  async_wait_if_needed ;;
  c <- get_self ;;
  _make_async_request_loop req (py_range (retries (config c) + 1)).

End Dispatcher.

(** ** Client construction *)

(** A [dict] passed as configuration: for each field of [ClientConfig]
    whether the key is present and with which value, and the keys that name
    no field. *)
Record ConfigDict : Type := mkConfigDict {
  d_base_url : option string;
  d_api_key : option (option string);
  d_timeout : option Q;
  d_retries : option Z;
  d_network : option string;
  d_rate_limit_requests : option Z;
  d_rate_limit_window : option Z;
  d_other_keys : list string
}.

Definition or_default {A} (o : option A) (default : A) : A :=
  match o with
  | Some a => a
  | None => default
  end.

(** [ClientConfig] called with the entries of the dict as keyword
    arguments, with the defaults of the dataclass. *)
Definition ClientConfig_of_dict (d : ConfigDict) : result ClientConfig :=
  match d_other_keys d with
  | k :: _ =>
      Raise (TypeError
               ("ClientConfig.__init__() got an unexpected keyword argument '"
                +s+ k +s+ "'"))
  | [] =>
      match d_base_url d with
      | None =>
          Raise (TypeError
                   "ClientConfig.__init__() missing 1 required positional argument: 'base_url'")
      | Some b =>
          Ok (mkClientConfig b
                (or_default (d_api_key d) None)
                (or_default (d_timeout d) 30%Q)
                (or_default (d_retries d) 3)
                (or_default (d_network d) "mainnet")
                (or_default (d_rate_limit_requests d) 100)
                (or_default (d_rate_limit_window d) 60))
      end
  end.

(** [config: Union[ClientConfig, Dict[str, Any]]] *)
Inductive config_arg : Type :=
| OfConfig (c : ClientConfig)
| OfDict (d : ConfigDict).

Section Client.

(** [constants.API_VERSION], [utils.validate_address],
    [utils.validate_amount], [utils.format_address] and the record types
    of [types.py] are imported by [client.py] but are not among the
    sources. *)
Variable API_VERSION : string.
Variable validate_address : string -> bool.
Variable validate_amount : json -> bool.
Variable format_address : string -> string.
Variables AccountT TransactionT NetworkStatsT : Type.
Variable Account : json -> result AccountT.
Variable Transaction : json -> result TransactionT.
Variable NetworkStats : json -> result NetworkStatsT.

Variable remote : transport.

(** [httpx.Client] and [httpx.AsyncClient] are not among the sources: their
    constructors are taken to return, and the clients are what they were
    given. *)
Definition _setup_http_client (cfg : ClientConfig) : HttpClient * HttpClient :=
  let headers :=
    [("Content-Type", "application/json");
     ("User-Agent", "Paradigm-SDK-Python/1.0.0")] in
  let headers :=
    match api_key cfg with
    | Some key =>
        if negb (String.eqb key EmptyString) then headers ++ [("X-API-Key", key)]
        else headers
    | None => headers
    end in
  let c := mkHttpClient (base_url cfg +s+ "/api/" +s+ API_VERSION) headers
                        (timeout cfg) in
  (c, c).

(** What [__init__] does once [self.config] is assigned. *)
Definition client_with_config (cfg : ClientConfig) : ParadigmClient :=
  let '(c, ac) := _setup_http_client cfg in
  mkParadigmClient cfg c ac
    (RateLimiter__init__ (rate_limit_requests cfg) (rate_limit_window cfg)).

Definition ParadigmClient__init__ (arg : config_arg) : result ParadigmClient :=
  cfg <-- match arg with
          | OfDict d => ClientConfig_of_dict d
          | OfConfig c => Ok c
          end ;;
  Ok (client_with_config cfg).

(** ** Typed Facade *)

(** [CreateTransactionRequest], of which [client.py] reads [to], [amount]
    and [__dict__]. *)
Record CreateTransactionRequest : Type := mkCreateTransactionRequest {
  to : string;
  amount : json;
  other_fields : list (string * json)
}.

Definition __dict__ (request : CreateTransactionRequest) : json :=
  JObj (("to", JStr (to request)) :: ("amount", amount request)
        :: other_fields request).

Definition get_health : M json :=
  _make_request remote (mkRequest "GET" "/health" None None).

Definition get_health_async : M json :=
  _make_async_request remote (mkRequest "GET" "/health" None None).

Definition get_network_stats : M NetworkStatsT :=
  data <- _make_request remote
            (mkRequest "GET" "/analytics/network-stats" None None) ;;
  lift (NetworkStats data).

Definition get_network_stats_async : M NetworkStatsT :=
  data <- _make_async_request remote
            (mkRequest "GET" "/analytics/network-stats" None None) ;;
  lift (NetworkStats data).

Definition get_account (address : string) : M AccountT :=
  if negb (validate_address address) then
    raise (ValidationError "Invalid address format")
  else
    data <- _make_request remote
              (mkRequest "GET" ("/accounts/" +s+ address) None None) ;;
    lift (Account data).

Definition get_account_async (address : string) : M AccountT :=
  if negb (validate_address address) then
    raise (ValidationError "Invalid address format")
  else
    data <- _make_async_request remote
              (mkRequest "GET" ("/accounts/" +s+ address) None None) ;;
    lift (Account data).

Definition get_balance (address : string) : M json :=
  if negb (validate_address address) then
    raise (ValidationError "Invalid address format")
  else
    _make_request remote
      (mkRequest "GET" ("/accounts/" +s+ address +s+ "/balance") None None).

Definition get_balance_async (address : string) : M json :=
  if negb (validate_address address) then
    raise (ValidationError "Invalid address format")
  else
    _make_async_request remote
      (mkRequest "GET" ("/accounts/" +s+ address +s+ "/balance") None None).

Definition get_transaction (hash : string) : M TransactionT :=
  data <- _make_request remote
            (mkRequest "GET" ("/transactions/" +s+ hash) None None) ;;
  lift (Transaction data).

Definition get_transaction_async (hash : string) : M TransactionT :=
  data <- _make_async_request remote
            (mkRequest "GET" ("/transactions/" +s+ hash) None None) ;;
  lift (Transaction data).

Definition create_transaction (request : CreateTransactionRequest)
  : M TransactionT :=
  if negb (validate_address (format_address (to request))) then
    raise (ValidationError "Invalid recipient address")
  else if negb (validate_amount (amount request)) then
    raise (ValidationError "Invalid amount")
  else
    data <- _make_request remote
              (mkRequest "POST" "/transactions" None (Some (__dict__ request))) ;;
    lift (Transaction data).

Definition create_transaction_async (request : CreateTransactionRequest)
  : M TransactionT :=
  if negb (validate_address (format_address (to request))) then
    raise (ValidationError "Invalid recipient address")
  else if negb (validate_amount (amount request)) then
    raise (ValidationError "Invalid amount")
  else
    data <- _make_async_request remote
              (mkRequest "POST" "/transactions" None (Some (__dict__ request))) ;;
    lift (Transaction data).

Definition send_signed_transaction (signed_transaction : string)
  : M TransactionT :=
  data <- _make_request remote
            (mkRequest "POST" "/transactions/send" None
               (Some (JObj [("signed_transaction", JStr signed_transaction)]))) ;;
  lift (Transaction data).

End Client.

(** The comment headings under which [class ParadigmClient] lists its
    methods; [Internal] stands for the methods before the first heading. *)
Inductive method_group : Type :=
| Internal
| HealthAndStatus
| AccountMethods
| TransactionMethods
| BlockMethods
| MLTaskMethods
| GovernanceMethods
| UtilityMethods.

Record method_def : Type := mkMethod {
  method_name : string;
  is_async : bool;
  group : method_group
}.

(** The methods that [class ParadigmClient] defines, in source order:
    [def] or [async def], and the heading they stand under. *)
Definition ParadigmClient_methods : list method_def :=
  [mkMethod "__init__" false Internal;
   mkMethod "_setup_http_client" false Internal;
   mkMethod "_handle_response" false Internal;
   mkMethod "_make_request" false Internal;
   mkMethod "_make_async_request" true Internal;
   mkMethod "get_health" false HealthAndStatus;
   mkMethod "get_health_async" true HealthAndStatus;
   mkMethod "get_network_stats" false HealthAndStatus;
   mkMethod "get_network_stats_async" true HealthAndStatus;
   mkMethod "get_account" false AccountMethods;
   mkMethod "get_account_async" true AccountMethods;
   mkMethod "get_balance" false AccountMethods;
   mkMethod "get_balance_async" true AccountMethods;
   mkMethod "get_transaction" false TransactionMethods;
   mkMethod "get_transaction_async" true TransactionMethods;
   mkMethod "create_transaction" false TransactionMethods;
   mkMethod "create_transaction_async" true TransactionMethods;
   mkMethod "send_signed_transaction" false TransactionMethods;
   mkMethod "estimate_fee" false TransactionMethods;
   mkMethod "get_transactions" false TransactionMethods;
   mkMethod "get_latest_block" false BlockMethods;
   mkMethod "get_block" false BlockMethods;
   mkMethod "create_ml_task" false MLTaskMethods;
   mkMethod "get_ml_task" false MLTaskMethods;
   mkMethod "get_ml_tasks" false MLTaskMethods;
   mkMethod "create_proposal" false GovernanceMethods;
   mkMethod "get_proposal" false GovernanceMethods;
   mkMethod "vote" false GovernanceMethods;
   mkMethod "set_api_key" false UtilityMethods;
   mkMethod "close" false UtilityMethods;
   mkMethod "aclose" true UtilityMethods;
   mkMethod "__enter__" false UtilityMethods;
   mkMethod "__exit__" false UtilityMethods;
   mkMethod "__aenter__" true UtilityMethods;
   mkMethod "__aexit__" true UtilityMethods].

Definition is_facade_group (g : method_group) : bool :=
  match g with
  | Internal | UtilityMethods => false
  | _ => true
  end.

(** The synchronous facade operations: the domain methods defined with a
    plain [def]. *)
Definition sync_operations : list string :=
  map method_name
    (filter (fun m => negb (is_async m) && is_facade_group (group m))
            ParadigmClient_methods).

(** Whether the class defines [async def <name>_async]. *)
Definition has_async_twin (name : string) : bool :=
  existsb (fun m => String.eqb (method_name m) (name +s+ "_async") && is_async m)
          ParadigmClient_methods.

(** ** Observations on event lists *)

Definition is_request (e : event) : bool :=
  match e with
  | Requested _ _ | AsyncRequested _ _ => true
  | _ => false
  end.

Definition is_limiter_entry (e : event) : bool :=
  match e with
  | LimiterEntered _ => true
  | _ => false
  end.

(** How many HTTP attempts a call made. *)
Definition http_attempts (evs : list event) : nat :=
  List.length (filter is_request evs).

(** How many times the rate limiter's routine ran. *)
Definition limiter_entries (evs : list event) : nat :=
  List.length (filter is_limiter_entry evs).

(** The durations slept, in order. *)
Definition sleeps (evs : list event) : list Q :=
  flat_map (fun e => match e with
                     | Slept secs | AsyncSlept secs => [secs]
                     | _ => []
                     end) evs.

(** The events of [R + 1] failed attempts: attempt [i], then a sleep of
    [2 ^ i] seconds, for [i] from [first] up, and a last attempt without a
    sleep. *)
Fixpoint failing_attempts (req : Request) (first : Z) (R : nat) : list event :=
  match R with
  | O => [Requested req first]
  | S R' =>
      Requested req first :: Slept (inject_Z (2 ^ first))
        :: failing_attempts req (first + 1) R'
  end.

Definition is_retryable (out : http_outcome) : bool :=
  match out with
  | Failed (ConnectError _) | Failed (TimeoutException _) => true
  | _ => false
  end.

Definition outcome_of {A} (x : result A * world * list event) : result A :=
  fst (fst x).

Definition world_of {A} (x : result A * world * list event) : world :=
  snd (fst x).

Definition events_of {A} (x : result A * world * list event) : list event :=
  snd x.

(** A call on the suspending path seen as a call on the blocking path:
    [asyncio.sleep] read as [time.sleep], a request through [_async_client]
    as one through [_client]. *)
Definition sync_event (e : event) : event :=
  match e with
  | AsyncSlept secs => Slept secs
  | AsyncRequested req attempt => Requested req attempt
  | _ => e
  end.

Definition sync_view {A} (x : result A * world * list event)
  : result A * world * list event :=
  let '(r, w, evs) := x in (r, w, map sync_event evs).

(** Body texts are written with [dq] for the double-quote character. *)
Definition dq (s : string) : string :=
  String "034"%char (s +s+ String "034"%char EmptyString).

Definition body_success_false : string :=
  "{" +s+ dq "success" +s+ ":false," +s+ dq "error" +s+ ":{"
  +s+ dq "message" +s+ ":" +s+ dq "x" +s+ "," +s+ dq "code" +s+ ":" +s+ dq "Y"
  +s+ "}}".

(** Status 200 with the body
    [{"success":false,"error":{"message":"x","code":"Y"}}]. *)
Definition response_success_false : Response :=
  mkResponse 200 body_success_false
    (Decoded (JObj [("success", JBool false);
                 ("error", JObj [("message", JStr "x"); ("code", JStr "Y")])])).

(** Status 429 with an empty body, on which [response.json()] raises
    [JSONDecodeError]. *)
Definition response_429_empty : Response := mkResponse 429 EmptyString JSONDecodeError.

(** Status 429 with a body that is not JSON. *)
Definition response_429_html : Response :=
  mkResponse 429 "<html>Too Many Requests</html>" JSONDecodeError.


(** Status 429 with the one-byte body [0xff], which is not valid UTF-8:
    [response.text] is the replacement character and [response.json()]
    raises [UnicodeDecodeError]. *)
Definition response_429_not_utf8 : Response :=
  mkResponse 429
    (String "239"%char (String "191"%char (String "189"%char EmptyString)))
    (DecodeRaised
       (UnicodeDecodeError
          "'utf-8' codec can't decode byte 0xff in position 0: invalid start byte")).

(** ** The configuration bounds *)

(** Retry count at least 0, timeout, quota and window positive. *)
Definition config_invariant (c : ClientConfig) : Prop :=
  0 <= retries c /\ (0 < timeout c)%Q
  /\ 0 < rate_limit_requests c /\ 0 < rate_limit_window c.

(** The same bounds on what the caller supplies, a key left out of a dict
    standing for the default of the dataclass. *)
Definition supplied_invariant (arg : config_arg) : Prop :=
  match arg with
  | OfConfig c => config_invariant c
  | OfDict d =>
      0 <= or_default (d_retries d) 3
      /\ (0 < or_default (d_timeout d) 30)%Q
      /\ 0 < or_default (d_rate_limit_requests d) 100
      /\ 0 < or_default (d_rate_limit_window d) 60
  end.

(** ** Sequences of calls to the rate limiter *)

Inductive limiter_path : Type :=
| Blocking
| Suspending.

Definition enter_limiter (p : limiter_path) : M unit :=
  match p with
  | Blocking => wait_if_needed
  | Suspending => async_wait_if_needed
  end.

(** Runs the calls of a script in turn, each one [gap] seconds after the
    previous one returned, and gives the times at which the calls returned,
    that is, at which their requests were let through. *)
Fixpoint run_limiter (script : list (Q * limiter_path)) : M (list Q) :=
  match script with
  | [] => ret []
  | (gap, p) :: rest =>
      advance gap ;;
      enter_limiter p ;;
      passed <- time_time ;;
      later <- run_limiter rest ;;
      ret (passed :: later)
  end.

(** Whether [a] lies in the interval of [W] seconds that starts at [t]. *)
Definition within (t : Q) (W : Z) (a : Q) : bool :=
  Qle_bool t a && Qlt_bool a (t + inject_Z W).

Definition passed_within (t : Q) (W : Z) (times : list Q) : nat :=
  List.length (filter (within t W) times).

(** No interval of [W] seconds holds more than [quota] of the [times]. *)
Definition rate_respected (quota W : Z) (times : list Q) : Prop :=
  forall t : Q, Z.of_nat (passed_within t W times) <= quota.

(** ** Concrete clients, remote sides and inputs *)

Definition default_dict : ConfigDict :=
  mkConfigDict (Some "https://node.example") None None None None None None [].

Definition default_config : ClientConfig :=
  mkClientConfig "https://node.example" None 30 3 "mainnet" 100 60.

(** One request per ten seconds. *)
Definition strict_config : ClientConfig :=
  mkClientConfig "https://node.example" None 30 3 "mainnet" 1 10.

Definition negative_retries_config : ClientConfig :=
  mkClientConfig "https://node.example" None 30 (-1) "mainnet" 100 60.

Definition zero_quota_dict : ConfigDict :=
  mkConfigDict (Some "https://node.example") None None None None (Some 0) None [].

(** A new client at time 0, before any request; the examples take
    [API_VERSION] to be [v1]. *)
Definition start (cfg : ClientConfig) : world :=
  mkWorld 0 0 (client_with_config "v1" cfg).

Definition refusing : transport :=
  fun _ _ => (0%Q, Failed (ConnectError "connection refused")).

Definition refusing_once (r : Response) : transport :=
  fun _ n =>
    match n with
    | O => (0%Q, Failed (ConnectError "connection refused"))
    | S _ => (0%Q, Replied r)
    end.

Definition replying (r : Response) : transport := fun _ _ => (0%Q, Replied r).

Definition health_request : Request := mkRequest "GET" "/health" None None.

Definition body_success_data : string :=
  "{" +s+ dq "success" +s+ ":true," +s+ dq "data" +s+ ":{"
  +s+ dq "height" +s+ ":7}}".

(** Status 200 with the body [{"success":true,"data":{"height":7}}]. *)
Definition response_success_data : Response :=
  mkResponse 200 body_success_data
    (Decoded (JObj [("success", JBool true);
                 ("data", JObj [("height", JInt 7)])])).

Definition body_success_only : string := "{" +s+ dq "success" +s+ ":true}".

(** Status 200 with the body [{"success":true}]. *)
Definition response_success_only : Response :=
  mkResponse 200 body_success_only (Decoded (JObj [("success", JBool true)])).

(** Status 429 with the body [[]]. *)
Definition response_429_list : Response :=
  mkResponse 429 "[]" (Decoded (JArr [])).

(** Status 400 with the body of [response_success_false]. *)
Definition response_400_error : Response :=
  mkResponse 400 body_success_false (json_body response_success_false).

(** An address check for the examples: an address starts with [PAR]. *)
Definition starts_with_PAR (address : string) : bool := prefix "PAR" address.

Definition transfer_to (recipient : string) : CreateTransactionRequest :=
  mkCreateTransactionRequest recipient (JStr "1.5") [].

(** ** The operations without a suspending form *)

(** The paginated operations subscript the payload, which can raise
    [KeyError] besides the exceptions of the core. *)
Inductive raised : Type :=
| Core (e : exn)
| KeyError (key : string).

Inductive outcome (A : Type) : Type :=
| Return (a : A)
| Throw (e : raised).
Arguments Return {A} a.
Arguments Throw {A} e.

Definition obind {A B} (o : outcome A) (k : A -> outcome B) : outcome B :=
  match o with
  | Return a => k a
  | Throw e => Throw e
  end.

Notation "x <~ c1 ;; c2" := (obind c1 (fun x => c2))
  (at level 100, c1 at next level, right associativity) : py_scope.

Definition of_result {A} (r : result A) : outcome A :=
  match r with
  | Ok a => Return a
  | Raise e => Throw (Core e)
  end.

(** [d[key]] for a string [key]: a [dict] without the key raises
    [KeyError], every other value raises [TypeError]. *)
Definition py_subscript (d : json) (key : string) : outcome json :=
  match d with
  | JObj fields =>
      match lookup key fields with
      | Some v => Return v
      | None => Throw (KeyError key)
      end
  | JArr _ =>
      Throw (Core (TypeError "list indices must be integers or slices, not str"))
  | JStr _ => Throw (Core (TypeError "string indices must be integers"))
  | _ => Throw (Core (TypeError "object is not subscriptable"))
  end.

(** The values that [for item in v] goes through: the elements of a
    [list], the keys of a [dict], the characters of a [str]. *)
Definition py_iter (v : json) : outcome (list json) :=
  match v with
  | JArr items => Return items
  | JObj fields => Return (map (fun kv => JStr (fst kv)) fields)
  | JStr s =>
      Return (map (fun c => JStr (String c EmptyString)) (list_ascii_of_string s))
  | _ => Throw (Core (TypeError "object is not iterable"))
  end.

(** [[decode(item) for item in items]]: the first failure ends the
    comprehension. *)
Fixpoint decode_all {T} (decode : json -> result T) (items : list json)
  : outcome (list T) :=
  match items with
  | [] => Return []
  | item :: rest =>
      first <~ of_result (decode item) ;;
      others <~ decode_all decode rest ;;
      Return (first :: others)
  end.

(** [PaginatedResponse] of [types.py], which is not among the sources: the
    record keeps the keyword arguments of the call that builds it. *)
Record PaginatedResponse (T : Type) : Type := mkPaginatedResponse {
  items : list T;
  total_count : json;
  page : json;
  page_size : json;
  total_pages : json;
  has_next : json;
  has_prev : json
}.

(** The [PaginatedResponse(...)] expression of [get_transactions] and
    [get_ml_tasks], its arguments evaluated from left to right. *)
Definition build_page {T} (decode : json -> result T) (data : json)
  : outcome (PaginatedResponse T) :=
  listed <~ py_subscript data "items" ;;
  elements <~ py_iter listed ;;
  decoded <~ decode_all decode elements ;;
  count <~ py_subscript data "total_count" ;;
  pg <~ py_subscript data "page" ;;
  size <~ py_subscript data "page_size" ;;
  pages <~ py_subscript data "total_pages" ;;
  next <~ py_subscript data "has_next" ;;
  prev <~ py_subscript data "has_prev" ;;
  Return (mkPaginatedResponse decoded count pg size pages next prev).

(** A dispatched call whose payload is then turned into a page. *)
Definition paged {T} (call : M json) (decode : json -> result T)
  : world -> outcome (PaginatedResponse T) * world * list event :=
  fun w =>
    match call w with
    | (Ok data, w1, evs) => (build_page decode data, w1, evs)
    | (Raise e, w1, evs) => (Throw (Core e), w1, evs)
    end.

Definition paged_outcome {A} (x : outcome A * world * list event) : outcome A :=
  fst (fst x).

Definition paged_events {A} (x : outcome A * world * list event) : list event :=
  snd x.

(** [{"page": page, "page_size": page_size}] *)
Definition page_params (page page_size : Z) : list (string * json) :=
  [("page", JInt page); ("page_size", JInt page_size)].

(** Truthiness of an [Optional[str]] argument. *)
Definition given (o : option string) : option string :=
  match o with
  | Some s => if String.eqb s EmptyString then None else Some s
  | None => None
  end.

(** [headers[name] = value] on the headers the client was given: the entry
    is replaced where it stands, or added at the end. *)
Fixpoint set_header (name value : string) (headers : list (string * string))
  : list (string * string) :=
  match headers with
  | [] => [(name, value)]
  | (k, v) :: rest =>
      if String.eqb k name then
        (k, value) :: filter (fun kv => negb (String.eqb (fst kv) name)) rest
      else (k, v) :: set_header name value rest
  end.

Fixpoint get_header (name : string) (headers : list (string * string))
  : option string :=
  match headers with
  | [] => None
  | (k, v) :: rest => if String.eqb k name then Some v else get_header name rest
  end.

Definition with_header (name value : string) (c : HttpClient) : HttpClient :=
  mkHttpClient (client_base_url c) (set_header name value (client_headers c))
               (client_timeout c).

Definition with_api_key (cfg : ClientConfig) (key : option string)
  : ClientConfig :=
  mkClientConfig (base_url cfg) key (timeout cfg) (retries cfg) (network cfg)
                 (rate_limit_requests cfg) (rate_limit_window cfg).

Definition set_api_key (key : string) : M unit := fun w =>
  let c := self w in
  (Ok tt,
   mkWorld (clock w) (sent w)
     (mkParadigmClient (with_api_key (config c) (Some key))
        (with_header "X-API-Key" key (_client c))
        (with_header "X-API-Key" key (_async_client c))
        (_rate_limiter c)),
   []).

Section Operations.

(** The record types of [types.py] and the request objects, of which
    [client.py] reads [__dict__] only. *)
Variables TransactionT FeeEstimateT BlockT MLTaskT ProposalT : Type.
Variable Transaction : json -> result TransactionT.
Variable FeeEstimate : json -> result FeeEstimateT.
Variable Block : json -> result BlockT.
Variable MLTask : json -> result MLTaskT.
Variable Proposal : json -> result ProposalT.
Variables MLTaskRequest CreateProposalRequest : Type.
Variable ml_task_dict : MLTaskRequest -> json.
Variable proposal_dict : CreateProposalRequest -> json.

Variable remote : transport.

Definition estimate_fee (request : CreateTransactionRequest) : M FeeEstimateT :=
  data <- _make_request remote
            (mkRequest "POST" "/transactions/estimate-fee" None
               (Some (__dict__ request))) ;;
  lift (FeeEstimate data).

Definition transactions_endpoint (address : option string) : string :=
  match given address with
  | Some a => "/addresses/" +s+ a +s+ "/transactions"
  | None => "/transactions"
  end.

Definition get_transactions (page page_size : Z) (address : option string)
  : world -> outcome (PaginatedResponse TransactionT) * world * list event :=
  let params := page_params page page_size in
  let endpoint := transactions_endpoint address in
  paged (_make_request remote
           (mkRequest "GET" endpoint (Some (JObj params)) None))
        Transaction.

Definition get_latest_block : M BlockT :=
  data <- _make_request remote
            (mkRequest "GET" "/blockchain/latest-block" None None) ;;
  lift (Block data).

Definition get_block (height : Z) : M BlockT :=
  data <- _make_request remote
            (mkRequest "GET" ("/blockchain/blocks/" +s+ str_of_int height)
               None None) ;;
  lift (Block data).

Definition create_ml_task (request : MLTaskRequest) : M MLTaskT :=
  data <- _make_request remote
            (mkRequest "POST" "/ml-tasks" None (Some (ml_task_dict request))) ;;
  lift (MLTask data).

Definition get_ml_task (task_id : string) : M MLTaskT :=
  data <- _make_request remote
            (mkRequest "GET" ("/ml-tasks/" +s+ task_id) None None) ;;
  lift (MLTask data).

Definition ml_tasks_params (page page_size : Z) (status : option string)
  : list (string * json) :=
  match given status with
  | Some s => page_params page page_size ++ [("status", JStr s)]
  | None => page_params page page_size
  end.

Definition get_ml_tasks (page page_size : Z) (status : option string)
  : world -> outcome (PaginatedResponse MLTaskT) * world * list event :=
  let params := ml_tasks_params page page_size status in
  paged (_make_request remote
           (mkRequest "GET" "/ml-tasks" (Some (JObj params)) None))
        MLTask.

Definition create_proposal (request : CreateProposalRequest) : M ProposalT :=
  data <- _make_request remote
            (mkRequest "POST" "/governance/proposals" None
               (Some (proposal_dict request))) ;;
  lift (Proposal data).

Definition get_proposal (proposal_id : string) : M ProposalT :=
  data <- _make_request remote
            (mkRequest "GET" ("/governance/proposals/" +s+ proposal_id)
               None None) ;;
  lift (Proposal data).

Definition vote (proposal_id option : string) : M unit :=
  _make_request remote
    (mkRequest "POST" ("/governance/proposals/" +s+ proposal_id +s+ "/vote")
       None (Some (JObj [("option", JStr option)]))) ;;
  ret tt.

End Operations.

(** ** What ends a call, and the state of the window *)

(** What [_make_request] makes of an exchange that is not retried. *)
Definition final_outcome (out : http_outcome) : result json :=
  match out with
  | Replied response => _handle_response response
  | Failed e => Raise (TransportError e)
  end.

(** The exceptions that the code of a dispatched call raises or lets
    through by its own doing: those of the rate limiter and of the Response
    Interpreter, [NetworkError] after the last retry, and a transport error
    that is neither a connect nor a timeout error. *)
Definition dispatch_error (e : exn) : bool :=
  match e with
  | NetworkError _ | RateLimitError _ | ParadigmError _ _ => true
  | AttributeError _ | IndexError _ => true
  | TransportError (OtherTransportError _) => true
  | TransportError _ => false
  | ValidationError _ | TypeError _ | UnicodeDecodeError _ => false
  end.

(** [e] is what [response.json()] raised, besides [json.JSONDecodeError], on
    some reply of the remote side to the request [req]. *)
Definition raised_by_decoding (remote : transport) (req : Request) (e : exn)
  : Prop :=
  exists n response,
    snd (remote req n) = Replied response
    /\ json_body response = DecodeRaised e.

(** The events [evs] of a call from [w] pass the rate limiter and then
    begin with attempt 0 of the request [req]. *)
Definition sends (w : world) (evs : list event) (req : Request) : Prop :=
  exists rest, evs = events_of (wait_if_needed w) ++ Requested req 0 :: rest.

(** The backoff delays of [R] retries, in seconds. *)
Definition backoff_delays (R : nat) : list Z :=
  map (fun i => 2 ^ Z.of_nat i) (seq 0 R).

Definition total (delays : list Z) : Z := fold_right Z.add 0 delays.

(** The entries that the pruning step of the limiter keeps at time [now]. *)
Definition live_calls (now : Q) (rl : RateLimiter) : list Q :=
  filter (fun call_time => Qlt_bool (now - call_time) (inject_Z (window rl)))
         (calls rl).

(** The recorded timestamps are in the order they were taken and none lies
    after the present. *)
Definition window_ordered (w : world) : Prop :=
  StronglySorted Qle (calls (_rate_limiter (self w)))
  /\ Forall (fun t => (t <= clock w)%Q) (calls (_rate_limiter (self w))).

(** Every recorded timestamp is less than the window older than [now]. *)
Definition window_fresh (now : Q) (rl : RateLimiter) : Prop :=
  Forall (fun t => (now - t < inject_Z (window rl))%Q) (calls rl).

(** Every limiter call of a script takes the blocking path. *)
Definition all_blocking (script : list (Q * limiter_path))
  : list (Q * limiter_path) :=
  map (fun call => (fst call, Blocking)) script.

Definition zero_quota_config : ClientConfig :=
  mkClientConfig "https://node.example" None 30 3 "mainnet" 0 60.

Definition keyed_config : ClientConfig :=
  mkClientConfig "https://node.example" (Some "secret") 30 3 "mainnet" 100 60.

(** A decoder for the examples that takes a mapping only, as a record
    constructor called with the entries of [item] as keyword arguments
    does. *)
Definition mapping_only (item : json) : result json :=
  match item with
  | JObj _ => Ok item
  | _ => Raise (TypeError "argument after ** must be a mapping")
  end.

(** A page payload whose flags contradict its numbers: page 3 of 3 with
    [has_next] true and [has_prev] false. *)
Definition page_payload : list (string * json) :=
  [("items", JArr [JObj [("hash", JStr "0xab")]]); ("total_count", JInt 45);
   ("page", JInt 3); ("page_size", JInt 20); ("total_pages", JInt 3);
   ("has_next", JBool true); ("has_prev", JBool false)].

Definition body_page : string :=
  "{" +s+ dq "success" +s+ ":true," +s+ dq "data" +s+ ":{" +s+ dq "items"
  +s+ ":[{" +s+ dq "hash" +s+ ":" +s+ dq "0xab" +s+ "}]," +s+ dq "total_count"
  +s+ ":45," +s+ dq "page" +s+ ":3," +s+ dq "page_size" +s+ ":20,"
  +s+ dq "total_pages" +s+ ":3," +s+ dq "has_next" +s+ ":true,"
  +s+ dq "has_prev" +s+ ":false}}".

(** Status 200 with [page_payload] as the [data] of a success envelope. *)
Definition response_page : Response :=
  mkResponse 200 body_page
    (Decoded (JObj [("success", JBool true); ("data", JObj page_payload)])).

(** Status 200 with the body [{"data":{"height":7}}]. *)
Definition response_data_only : Response :=
  mkResponse 200 ("{" +s+ dq "data" +s+ ":{" +s+ dq "height" +s+ ":7}}")
    (Decoded (JObj [("data", JObj [("height", JInt 7)])])).

(** Status 503 with the body [{}]. *)
Definition response_503_empty : Response := mkResponse 503 "{}" (Decoded (JObj [])).

(** Status 200 with the body [[]]. *)
Definition response_200_list : Response := mkResponse 200 "[]" (Decoded (JArr [])).

(** A client with quota 1 per ten seconds, at time 5, that has recorded
    calls at the times 0 and 3. *)
Definition busy_world : world :=
  with_calls (elapse (start strict_config) 5) [0%Q; 3%Q].
(** * Properties *)

(** ** Response Interpreter *)

(** Below 400 neither status test of [_handle_response] fires. *)
Lemma status_below_400 (response : Response) :
  status_code response < 400 ->
  (status_code response =? 429) = false
  /\ (status_code response >=? 400) = false.
Proof.
  intros Hstatus. split.
  - apply Z.eqb_neq. lia.
  - rewrite Z.geb_leb. apply Z.leb_gt. lia.
Qed.

(** C4, as stated, fails: a 429 response whose body is empty or is not JSON
    is turned into [NetworkError] by the decoding step, which runs before
    the status is looked at. *)
Lemma unparseable_429_is_network_error :
  _handle_response response_429_empty
    = Raise (NetworkError "Invalid JSON response: ")
  /\ _handle_response response_429_html
    = Raise (NetworkError "Invalid JSON response: <html>Too Many Requests</html>")
  /\ (forall msg, _handle_response response_429_empty <> Raise (RateLimitError msg)).
Proof.
  repeat split; try reflexivity.
  intros msg H. discriminate H.
Qed.

(** C4, amended: for a response with status 429 whose body decodes as
    JSON, [_handle_response] raises [RateLimitError] whatever the decoded
    document is; when decoding the body raises [json.JSONDecodeError], as
    for an empty body or text that is not JSON, it raises [NetworkError]
    instead, the body being decoded before the status is looked at.  What
    happens when decoding raises something else is left open here. *)
Theorem handle_response_429 (response : Response) :
  status_code response = 429 ->
  (forall data,
      json_body response = Decoded data ->
      _handle_response response = Raise (RateLimitError "Rate limit exceeded"))
  /\ (json_body response = JSONDecodeError ->
      _handle_response response
      = Raise (NetworkError ("Invalid JSON response: " +s+ text response))).
Proof.
  intros Hstatus. unfold _handle_response. split.
  - intros data ->. now rewrite Hstatus.
  - intros ->. reflexivity.
Qed.

Lemma handle_response_429_witness :
  _handle_response response_429_list
  = Raise (RateLimitError "Rate limit exceeded")
  /\ _handle_response response_429_empty
     = Raise (NetworkError "Invalid JSON response: ").
Proof.
  split.
  - exact (proj1 (handle_response_429 response_429_list eq_refl)
             (JArr []) eq_refl).
  - exact (proj2 (handle_response_429 response_429_empty eq_refl) eq_refl).
Defined.

(** A 429 whose body is not valid UTF-8: [response.json()] raises
    [UnicodeDecodeError], which the [except] clause does not catch, and the
    exception leaves [_handle_response] as it is. *)
Remark undecodable_429_escapes :
  _handle_response response_429_not_utf8
  = Raise (UnicodeDecodeError
             "'utf-8' codec can't decode byte 0xff in position 0: invalid start byte").
Proof. reflexivity. Qed.

(** C7: for a status below 400 and an envelope with [success == true] and a
    ["data"] field, [_handle_response] returns the value of that field. *)
Theorem handle_response_returns_data
    (response : Response) (fields : list (string * json)) (payload : json) :
  status_code response < 400 ->
  json_body response = Decoded (JObj fields) ->
  lookup "success" fields = Some (JBool true) ->
  lookup "data" fields = Some payload ->
  _handle_response response = Ok payload.
Proof.
  intros Hstatus Hbody Hsuccess Hdata. unfold _handle_response.
  rewrite Hbody.
  destruct (status_below_400 response Hstatus) as [-> ->].
  cbn [py_get rbind]. rewrite Hsuccess, Hdata. reflexivity.
Qed.

Lemma handle_response_returns_data_witness :
  _handle_response response_success_data = Ok (JObj [("height", JInt 7)]).
Proof.
  apply handle_response_returns_data
    with (fields := [("success", JBool true); ("data", JObj [("height", JInt 7)])]);
    [ simpl; lia | reflexivity | reflexivity | reflexivity ].
Defined.

(** C10: for a status below 400 and an envelope with [success == true] and
    no ["data"] field, [_handle_response] returns the empty mapping. *)
Theorem handle_response_missing_data
    (response : Response) (fields : list (string * json)) :
  status_code response < 400 ->
  json_body response = Decoded (JObj fields) ->
  lookup "success" fields = Some (JBool true) ->
  lookup "data" fields = None ->
  _handle_response response = Ok (JObj []).
Proof.
  intros Hstatus Hbody Hsuccess Hdata. unfold _handle_response.
  rewrite Hbody.
  destruct (status_below_400 response Hstatus) as [-> ->].
  cbn [py_get rbind]. rewrite Hsuccess, Hdata. reflexivity.
Qed.

Lemma handle_response_missing_data_witness :
  _handle_response response_success_only = Ok (JObj []).
Proof.
  apply handle_response_missing_data with (fields := [("success", JBool true)]);
    [ simpl; lia | reflexivity | reflexivity | reflexivity ].
Defined.

(** ** Rate Limiter and Dispatcher: how a call unfolds *)

Section DispatcherFacts.

Variable remote : transport.

Lemma wait_if_needed_eq (w : world) :
  wait_if_needed w =
    let rl := _rate_limiter (self w) in
    let now := clock w in
    let kept :=
      filter (fun call_time => Qlt_bool (now - call_time) (inject_Z (window rl)))
             (calls rl) in
    if Z.of_nat (List.length kept) >=? requests rl then
      match kept with
      | [] => (Raise (IndexError "list index out of range"),
               with_calls w kept, [LimiterEntered now])
      | oldest :: _ =>
          let sleep_time := (inject_Z (window rl) - (now - oldest))%Q in
          if Qlt_bool 0 sleep_time then
            (Ok tt, with_calls (elapse (with_calls w kept) sleep_time) (kept ++ [now]),
             [LimiterEntered now; Slept sleep_time])
          else
            (Ok tt, with_calls (with_calls w kept) (kept ++ [now]),
             [LimiterEntered now])
      end
    else
      (Ok tt, with_calls (with_calls w kept) (kept ++ [now]),
       [LimiterEntered now]).
Proof.
  cbv beta iota zeta delta
    [wait_if_needed bind time_time emit get_self set_calls time_sleep
     advance ret index0 raise].
  destruct (Z.of_nat _ >=? _).
  - destruct (filter _ _) as [|oldest rest]; [reflexivity|].
    cbn [self _rate_limiter requests window calls with_calls].
    destruct (Qlt_bool _ _); reflexivity.
  - reflexivity.
Qed.

Lemma async_wait_if_needed_eq (w : world) :
  async_wait_if_needed w =
    let rl := _rate_limiter (self w) in
    let now := clock w in
    let kept :=
      filter (fun call_time => Qlt_bool (now - call_time) (inject_Z (window rl)))
             (calls rl) in
    if Z.of_nat (List.length kept) >=? requests rl then
      match kept with
      | [] => (Raise (IndexError "list index out of range"),
               with_calls w kept, [LimiterEntered now])
      | oldest :: _ =>
          let sleep_time := (inject_Z (window rl) - (now - oldest))%Q in
          if Qlt_bool 0 sleep_time then
            (Ok tt, with_calls (elapse (with_calls w kept) sleep_time) (kept ++ [now]),
             [LimiterEntered now; AsyncSlept sleep_time])
          else
            (Ok tt, with_calls (with_calls w kept) (kept ++ [now]),
             [LimiterEntered now])
      end
    else
      (Ok tt, with_calls (with_calls w kept) (kept ++ [now]),
       [LimiterEntered now]).
Proof.
  cbv beta iota zeta delta
    [async_wait_if_needed bind time_time emit get_self set_calls
     asyncio_sleep advance ret index0 raise].
  destruct (Z.of_nat _ >=? _).
  - destruct (filter _ _) as [|oldest rest]; [reflexivity|].
    cbn [self _rate_limiter requests window calls with_calls].
    destruct (Qlt_bool _ _); reflexivity.
  - reflexivity.
Qed.

(** What one run of the limiter's routine leaves unchanged, and what it
    emits: one entry, first, and no HTTP request. *)
Lemma wait_if_needed_frame (w : world) :
  let x := wait_if_needed w in
  config (self (world_of x)) = config (self w)
  /\ sent (world_of x) = sent w
  /\ requests (_rate_limiter (self (world_of x))) = requests (_rate_limiter (self w))
  /\ (exists rest, events_of x = LimiterEntered (clock w) :: rest
                   /\ limiter_entries rest = 0%nat
                   /\ http_attempts rest = 0%nat).
Proof.
  rewrite wait_if_needed_eq. cbv zeta.
  destruct (Z.of_nat _ >=? _).
  - destruct (filter _ _) as [|oldest rest].
    + repeat split; eexists; repeat split; reflexivity.
    + destruct (Qlt_bool _ _); repeat split; eexists; repeat split; reflexivity.
  - repeat split; eexists; repeat split; reflexivity.
Qed.

(** With a positive quota the routine returns: the list it indexes is not
    empty. *)
Lemma wait_if_needed_returns (w : world) :
  0 < requests (_rate_limiter (self w)) ->
  outcome_of (wait_if_needed w) = Ok tt.
Proof.
  intros Hquota. rewrite wait_if_needed_eq. cbv zeta.
  destruct (Z.of_nat _ >=? _) eqn:Hfull; [|reflexivity].
  destruct (filter _ _) as [|oldest rest].
  - rewrite Z.geb_leb in Hfull. apply Z.leb_le in Hfull. simpl in Hfull. lia.
  - destruct (Qlt_bool _ _); reflexivity.
Qed.

Lemma make_request_loop_step (req : Request) (attempt : Z) (rest : list Z)
    (w : world) :
  _make_request_loop remote req (attempt :: rest) w =
    let w1 := received (elapse w (fst (remote req (sent w)))) in
    match snd (remote req (sent w)) with
    | Replied response =>
        (_handle_response response, w1, [Requested req attempt])
    | Failed (OtherTransportError d) =>
        (Raise (TransportError (OtherTransportError d)), w1,
         [Requested req attempt])
    | Failed e =>
        if attempt =? retries (config (self w)) then
          (Raise (NetworkError
                    ("Request failed after "
                     +s+ str_of_int (retries (config (self w)))
                     +s+ " retries: " +s+ str_of_error e)),
           w1, [Requested req attempt])
        else
          let x := _make_request_loop remote req rest
                     (elapse w1 (inject_Z (2 ^ attempt))) in
          (outcome_of x, world_of x,
           Requested req attempt :: Slept (inject_Z (2 ^ attempt))
             :: events_of x)
    end.
Proof.
  cbn [_make_request_loop].
  cbv beta iota zeta delta
    [bind client_request lift raise get_self time_sleep emit advance].
  destruct (remote req (sent w)) as [elapsed out]. cbn [fst snd].
  destruct out as [[d|d|d]|response]; try reflexivity.
  all: cbn [self received elapse];
    destruct (attempt =? _); [reflexivity|];
    destruct (_make_request_loop _ _ _ _) as [[r w'] evs]; reflexivity.
Qed.

Lemma make_request_eq (req : Request) (w : world) :
  _make_request remote req w =
    let x := wait_if_needed w in
    match outcome_of x with
    | Ok _ =>
        let y := _make_request_loop remote req
                   (py_range (retries (config (self (world_of x))) + 1))
                   (world_of x) in
        (outcome_of y, world_of y, events_of x ++ events_of y)
    | Raise e => (Raise e, world_of x, events_of x)
    end.
Proof.
  unfold _make_request, bind at 1. cbv zeta.
  destruct (wait_if_needed w) as [[[u|e] w1] evs1]; cbn [outcome_of world_of events_of fst snd];
    [|reflexivity].
  unfold bind, get_self.
  destruct (_make_request_loop _ _ _ _) as [[r w2] evs2]. reflexivity.
Qed.

(** The retry loop never enters the rate limiter. *)
Lemma make_request_loop_no_limiter (req : Request) (attempts : list Z) :
  forall w,
    limiter_entries (events_of (_make_request_loop remote req attempts w)) = 0%nat.
Proof.
  induction attempts as [|attempt rest IH]; intros w; [reflexivity|].
  rewrite make_request_loop_step. cbv zeta.
  destruct (snd (remote req (sent w))) as [[d|d|d]|response]; try reflexivity.
  all: destruct (attempt =? _); [reflexivity|];
    cbn [events_of snd]; apply IH.
Qed.

Lemma http_attempts_failing (req : Request) (R : nat) :
  forall first, http_attempts (failing_attempts req first R) = S R.
Proof.
  induction R as [|R IH]; intros first; [reflexivity|].
  cbn [failing_attempts]. unfold http_attempts in *. cbn [filter is_request List.length].
  now rewrite IH.
Qed.

Lemma sleeps_failing (req : Request) (R : nat) :
  forall first : nat,
    sleeps (failing_attempts req (Z.of_nat first) R) =
      map (fun i => inject_Z (2 ^ Z.of_nat i)) (seq first R).
Proof.
  induction R as [|R IH]; intros first; [reflexivity|].
  cbn [failing_attempts sleeps flat_map seq map app].
  f_equal. replace (Z.of_nat first + 1) with (Z.of_nat (S first)) by lia.
  apply IH.
Qed.

(** When every exchange fails with a connect or timeout error, the loop
    over attempts [first .. first + R], [first + R] being the configured
    retry count, makes all of them and raises [NetworkError]. *)
Lemma make_request_loop_all_fail (req : Request) (R : nat) :
  (forall n, is_retryable (snd (remote req n)) = true) ->
  forall (first : nat) (w : world),
    Z.of_nat (first + R) = retries (config (self w)) ->
    let x := _make_request_loop remote req (map Z.of_nat (seq first (S R))) w in
    (exists msg, outcome_of x = Raise (NetworkError msg))
    /\ events_of x = failing_attempts req (Z.of_nat first) R
    /\ sent (world_of x) = (sent w + S R)%nat
    /\ self (world_of x) = self w.
Proof.
  intros Hfail. induction R as [|R IH]; intros first w Hlast x; subst x.
  - cbn [seq map]. rewrite make_request_loop_step. cbv zeta.
    specialize (Hfail (sent w)).
    destruct (snd (remote req (sent w))) as [[d|d|d]|response];
      try discriminate Hfail.
    all: replace (Z.of_nat first =? _) with true
           by (symmetry; apply Z.eqb_eq; lia).
    all: cbn [outcome_of world_of events_of fst snd failing_attempts
              received elapse sent self];
      repeat split; try (eexists; reflexivity); lia.
  - cbn [seq map]. rewrite make_request_loop_step. cbv zeta.
    pose proof (Hfail (sent w)) as Hnow.
    destruct (snd (remote req (sent w))) as [[d|d|d]|response];
      try discriminate Hnow.
    all: replace (Z.of_nat first =? _) with false
           by (symmetry; apply Z.eqb_neq; lia).
    all: cbn [outcome_of world_of events_of fst snd failing_attempts].
    all: match goal with
         | |- context [_make_request_loop _ _ _ ?w1] =>
             destruct (IH (S first) w1) as (Hmsg & Hevs & Hsent & Hself);
               [cbn [self elapse received]; lia|]
         end.
    all: cbn [seq map] in Hmsg, Hevs, Hsent, Hself.
    all: repeat split;
      [ exact Hmsg
      | rewrite Hevs; replace (Z.of_nat first + 1) with (Z.of_nat (S first)) by lia;
        reflexivity
      | rewrite Hsent; cbn [sent elapse received]; lia
      | rewrite Hself; reflexivity ].
Qed.

End DispatcherFacts.

(** ** The two call paths *)

Section TwinFacts.

Variable remote : transport.

Lemma bind_sync_view {A B} (m m' : M A) (k k' : A -> M B) :
  (forall w, sync_view (m w) = m' w) ->
  (forall a w, sync_view (k a w) = k' a w) ->
  forall w, sync_view (bind m k w) = bind m' k' w.
Proof.
  intros Hm Hk w. unfold bind. rewrite <- Hm.
  destruct (m w) as [[[a|e] w1] evs1]; cbn [sync_view]; [|reflexivity].
  rewrite <- Hk. destruct (k a w1) as [[r w2] evs2]. cbn [sync_view].
  now rewrite map_app.
Qed.

Lemma async_wait_if_needed_sync (w : world) :
  sync_view (async_wait_if_needed w) = wait_if_needed w.
Proof.
  rewrite async_wait_if_needed_eq, wait_if_needed_eq. cbv zeta.
  destruct (Z.of_nat _ >=? _); [|reflexivity].
  destruct (filter _ _) as [|oldest rest]; [reflexivity|].
  destruct (Qlt_bool _ _); reflexivity.
Qed.

Lemma async_loop_sync (req : Request) (attempts : list Z) :
  forall w,
    sync_view (_make_async_request_loop remote req attempts w)
    = _make_request_loop remote req attempts w.
Proof.
  induction attempts as [|attempt rest IH]; intros w; [reflexivity|].
  cbn [_make_async_request_loop _make_request_loop].
  apply bind_sync_view.
  - intros w0. unfold async_client_request, client_request.
    destruct (remote req (sent w0)); reflexivity.
  - intros [[d|d|d]|response] w0; try reflexivity.
    all: apply bind_sync_view; [reflexivity|];
      intros c w1; destruct (attempt =? _); [reflexivity|];
      apply bind_sync_view; [reflexivity|]; intros _ w2; apply IH.
Qed.

Lemma make_async_request_sync (req : Request) (w : world) :
  sync_view (_make_async_request remote req w) = _make_request remote req w.
Proof.
  unfold _make_async_request, _make_request.
  apply bind_sync_view; [apply async_wait_if_needed_sync|].
  intros _ w1. apply bind_sync_view; [reflexivity|].
  intros c w2. apply async_loop_sync.
Qed.

Lemma limiter_entries_sync {A} (x : result A * world * list event) :
  limiter_entries (events_of (sync_view x)) = limiter_entries (events_of x).
Proof.
  destruct x as [[r w] evs]. cbn [sync_view events_of snd].
  unfold limiter_entries. induction evs as [|[now|s|s|rq a|rq a] evs IH];
    cbn [map filter sync_event is_limiter_entry List.length]; congruence.
Qed.

End TwinFacts.

(** ** Rate Limiter *)

(** C1, evaluated on the code: with a quota of one request per ten seconds,
    three calls of [wait_if_needed] made back to back on a new client return
    at the times 0, 10 and 10.  The second call sleeps ten seconds and then
    records the time it read before sleeping, without looking at the window
    again; the third call, at time 10, finds both recorded entries expired
    and passes at once.  Two requests are let through in the ten seconds
    that start at time 10, and two entries recorded in the ten seconds that
    start at time 0.  The same happens when the calls alternate between the
    blocking and the suspending routine. *)
Theorem limiter_burst_exceeds_quota :
  let burst := [(0%Q, Blocking); (0%Q, Blocking); (0%Q, Blocking)] in
  let mixed := [(0%Q, Blocking); (1%Q, Suspending); (0%Q, Blocking)] in
  outcome_of (run_limiter burst (start strict_config)) = Ok [0%Q; 10%Q; 10%Q]
  /\ events_of (run_limiter burst (start strict_config))
     = [LimiterEntered 0; LimiterEntered 0; Slept 10; LimiterEntered 10]
  /\ calls (_rate_limiter (self (world_of
       (run_limiter [(0%Q, Blocking); (0%Q, Blocking)] (start strict_config)))))
     = [0%Q; 0%Q]
  /\ passed_within 10 10 [0%Q; 10%Q; 10%Q] = 2%nat
  /\ ~ rate_respected 1 10 [0%Q; 10%Q; 10%Q]
  /\ ~ rate_respected 1 10 [0%Q; 0%Q]
  /\ outcome_of (run_limiter mixed (start strict_config)) = Ok [0%Q; 10%Q; 11%Q]
  /\ ~ rate_respected 1 10 [0%Q; 10%Q; 11%Q].
Proof.
  cbv zeta. repeat split; try (vm_compute; reflexivity).
  - intros H. specialize (H 10%Q). vm_compute in H. apply H. reflexivity.
  - intros H. specialize (H 0%Q). vm_compute in H. apply H. reflexivity.
  - intros H. specialize (H 10%Q). vm_compute in H. apply H. reflexivity.
Qed.

(** ** Request Dispatcher *)

(** C2: when every HTTP attempt fails with a connect or timeout error and
    the retry count is [R], [_make_request] makes exactly [R + 1] attempts,
    sleeps [2 ^ i] seconds after attempt [i] for [i = 0 .. R - 1], and then
    raises [NetworkError].  [R] is at least 0 and the quota is positive, as
    the configuration bounds require. *)
Theorem make_request_exhausts_retries
    (remote : transport) (req : Request) (w : world) :
  0 <= retries (config (self w)) ->
  0 < requests (_rate_limiter (self w)) ->
  (forall n, is_retryable (snd (remote req n)) = true) ->
  let R := Z.to_nat (retries (config (self w))) in
  let x := _make_request remote req w in
  (exists msg, outcome_of x = Raise (NetworkError msg))
  /\ events_of x = events_of (wait_if_needed w) ++ failing_attempts req 0 R
  /\ http_attempts (events_of x) = (R + 1)%nat
  /\ sleeps (failing_attempts req 0 R)
     = map (fun i => inject_Z (2 ^ Z.of_nat i)) (seq 0 R)
  /\ sent (world_of x) = (sent w + (R + 1))%nat.
Proof.
  intros Hretries Hquota Hfail R x. subst x.
  rewrite make_request_eq. cbv zeta.
  pose proof (wait_if_needed_returns w Hquota) as Hok.
  destruct (wait_if_needed_frame w) as (Hcfg & Hsent & _ & rest & Hevs & _ & Hrest).
  rewrite Hok, Hcfg.
  unfold py_range.
  replace (Z.to_nat (retries (config (self w)) + 1)) with (S R) by (subst R; lia).
  destruct (make_request_loop_all_fail remote req R Hfail 0 (world_of (wait_if_needed w)))
    as (Hmsg & Hloop & Hcount & _).
  { rewrite Hcfg. subst R. lia. }
  cbn [outcome_of world_of events_of fst snd].
  change (Z.of_nat 0) with 0 in Hloop.
  repeat split.
  - exact Hmsg.
  - now rewrite Hloop.
  - rewrite Hloop, Hevs. unfold http_attempts in *.
    cbn [app filter is_request]. rewrite filter_app, length_app.
    fold (http_attempts (failing_attempts req 0 R)).
    rewrite http_attempts_failing. rewrite Hrest. lia.
  - apply (sleeps_failing req R 0).
  - rewrite Hcount, Hsent. lia.
Qed.

Lemma make_request_exhausts_retries_witness :
  (exists msg,
      outcome_of (_make_request refusing health_request (start default_config))
      = Raise (NetworkError msg))
  /\ http_attempts
       (events_of (_make_request refusing health_request (start default_config)))
     = 4%nat
  /\ sleeps (failing_attempts health_request 0 3) = [1%Q; 2%Q; 4%Q].
Proof.
  destruct (make_request_exhausts_retries refusing health_request
              (start default_config))
    as (Hmsg & _ & Hcount & Hsleeps & _).
  - vm_compute. discriminate.
  - reflexivity.
  - intros n. reflexivity.
  - split; [exact Hmsg | split; [exact Hcount | exact Hsleeps]].
Defined.

(** Outside those bounds: a negative retry count makes the loop body run
    zero times, and the call returns [None] without any attempt. *)
Remark make_request_negative_retries :
  _make_request refusing health_request (start negative_retries_config)
  = (Ok JNull,
     with_calls (start negative_retries_config) [0%Q],
     [LimiterEntered 0]).
Proof. reflexivity. Qed.

(** C3, as stated, fails: a call whose first attempt is refused and whose
    second attempt is answered makes two attempts and runs the rate
    limiter's routine once. *)
Lemma retry_does_not_reenter_limiter :
  let evs := events_of (_make_request (refusing_once response_success_data)
                          health_request (start default_config)) in
  http_attempts evs = 2%nat
  /\ limiter_entries evs = 1%nat
  /\ limiter_entries evs <> http_attempts evs.
Proof.
  cbv zeta. repeat split. vm_compute. discriminate.
Qed.

(** C3, amended: every dispatched call, blocking or suspending, runs the
    rate limiter's routine exactly once, before its first HTTP attempt;
    retries do not run it again. *)
Theorem make_request_enters_limiter_once
    (remote : transport) (req : Request) (w : world) :
  limiter_entries (events_of (_make_request remote req w)) = 1%nat
  /\ limiter_entries (events_of (_make_async_request remote req w)) = 1%nat
  /\ (exists rest,
         events_of (_make_request remote req w) = LimiterEntered (clock w) :: rest)
  /\ (exists rest,
         events_of (_make_async_request remote req w)
         = LimiterEntered (clock w) :: rest).
Proof.
  assert (Hsync : limiter_entries (events_of (_make_request remote req w)) = 1%nat
                  /\ exists rest, events_of (_make_request remote req w)
                                  = LimiterEntered (clock w) :: rest).
  { rewrite make_request_eq. cbv zeta.
    destruct (wait_if_needed_frame w) as (_ & _ & _ & rest & Hevs & Hrest & _).
    destruct (outcome_of (wait_if_needed w)) as [u|e];
      cbn [events_of snd]; rewrite Hevs.
    - split; [|eexists; reflexivity].
      unfold limiter_entries in *. cbn [app filter is_limiter_entry List.length].
      rewrite filter_app, length_app, Hrest.
      fold (limiter_entries (events_of (_make_request_loop remote req
             (py_range (retries (config (self (world_of (wait_if_needed w)))) + 1))
             (world_of (wait_if_needed w))))).
      now rewrite make_request_loop_no_limiter.
    - split; [|eexists; reflexivity].
      unfold limiter_entries in *. cbn [filter is_limiter_entry List.length].
      now rewrite Hrest. }
  destruct Hsync as (Hcount & first & Hfirst).
  repeat split.
  - exact Hcount.
  - rewrite <- limiter_entries_sync, make_async_request_sync. exact Hcount.
  - eexists; exact Hfirst.
  - pose proof (make_async_request_sync remote req w) as Hview.
    destruct (_make_async_request remote req w) as [[r w'] evs].
    cbn [sync_view] in Hview. rewrite <- Hview in Hfirst.
    cbn [events_of snd] in *.
    destruct evs as [|[now|s|s|rq a|rq a] evs]; cbn [map sync_event] in Hfirst;
      try discriminate Hfirst.
    injection Hfirst as Hnow _. rewrite Hnow. eexists; reflexivity.
Qed.

(** C5, evaluated on the code: for status 200 and the body
    [{"success":false,"error":{"message":"x","code":"Y"}}] the interpreter
    raises [ParadigmError("x")], giving the exception no code, although the
    branch for statuses from 400 up reads [error.code] from the same body
    and passes it on; the Dispatcher makes one attempt and no retry. *)
Theorem success_false_drops_error_code :
  _handle_response response_success_false = Raise (ParadigmError (JStr "x") None)
  /\ _handle_response response_success_false
     <> Raise (ParadigmError (JStr "x") (Some (JStr "Y")))
  /\ _handle_response response_400_error
     = Raise (ParadigmError (JStr "x") (Some (JStr "Y")))
  /\ outcome_of (_make_request (replying response_success_false) health_request
                   (start default_config))
     = Raise (ParadigmError (JStr "x") None)
  /\ events_of (_make_request (replying response_success_false) health_request
                  (start default_config))
     = [LimiterEntered 0; Requested health_request 0].
Proof.
  repeat split; try reflexivity. discriminate.
Qed.

(** ** Typed Facade *)

Section FacadeFacts.

Variable validate_address : string -> bool.
Variable validate_amount : json -> bool.
Variable format_address : string -> string.
Variables AccountT TransactionT NetworkStatsT : Type.
Variable Account : json -> result AccountT.
Variable Transaction : json -> result TransactionT.
Variable NetworkStats : json -> result NetworkStatsT.
Variable remote : transport.

(** C6: an address-validated operation ([get_account], [get_balance],
    [create_transaction] and their suspending forms) called with an address
    that [validate_address] rejects raises [ValidationError] without
    entering the rate limiter and without any HTTP request: no event is
    emitted and the client, its recorded window included, is unchanged.
    [create_transaction] checks the recipient as [format_address] returns
    it. *)
Theorem invalid_address_fails_before_dispatch
    (address : string) (request : CreateTransactionRequest) (w : world) :
  validate_address address = false ->
  validate_address (format_address (to request)) = false ->
  get_account validate_address Account remote address w
  = (Raise (ValidationError "Invalid address format"), w, [])
  /\ get_account_async validate_address Account remote address w
     = (Raise (ValidationError "Invalid address format"), w, [])
  /\ get_balance validate_address remote address w
     = (Raise (ValidationError "Invalid address format"), w, [])
  /\ get_balance_async validate_address remote address w
     = (Raise (ValidationError "Invalid address format"), w, [])
  /\ create_transaction validate_address validate_amount format_address
       Transaction remote request w
     = (Raise (ValidationError "Invalid recipient address"), w, [])
  /\ create_transaction_async validate_address validate_amount format_address
       Transaction remote request w
     = (Raise (ValidationError "Invalid recipient address"), w, []).
Proof.
  intros Haddress Hrecipient.
  unfold get_account, get_account_async, get_balance, get_balance_async,
    create_transaction, create_transaction_async.
  rewrite Haddress, Hrecipient. cbn [negb].
  repeat split.
Qed.

(** C8, amended: the synchronous operations that have a suspending twin
    are [get_health], [get_network_stats], [get_account], [get_balance],
    [get_transaction] and [create_transaction]; for each of them the twin,
    run from the same state against the same remote side, validates alike,
    returns or raises the same, leaves the same state and does the same
    things in the same order, sleeping through [asyncio.sleep] and
    requesting through the asynchronous HTTP client instead. *)
Theorem async_twins_agree
    (address hash : string) (request : CreateTransactionRequest) (w : world) :
  filter has_async_twin sync_operations
  = ["get_health"; "get_network_stats"; "get_account"; "get_balance";
     "get_transaction"; "create_transaction"]
  /\ sync_view (get_health_async remote w) = get_health remote w
  /\ sync_view (get_network_stats_async NetworkStats remote w)
     = get_network_stats NetworkStats remote w
  /\ sync_view (get_account_async validate_address Account remote address w)
     = get_account validate_address Account remote address w
  /\ sync_view (get_balance_async validate_address remote address w)
     = get_balance validate_address remote address w
  /\ sync_view (get_transaction_async Transaction remote hash w)
     = get_transaction Transaction remote hash w
  /\ sync_view (create_transaction_async validate_address validate_amount
                  format_address Transaction remote request w)
     = create_transaction validate_address validate_amount format_address
         Transaction remote request w.
Proof.
  assert (Hdecode : forall A (decode : json -> result A) req w0,
             sync_view ((data <- _make_async_request remote req ;;
                         lift (decode data)) w0)
             = (data <- _make_request remote req ;; lift (decode data)) w0).
  { intros A decode req w0. apply bind_sync_view.
    - apply make_async_request_sync.
    - reflexivity. }
  unfold get_health_async, get_health, get_network_stats_async,
    get_network_stats, get_account_async, get_account, get_balance_async,
    get_balance, get_transaction_async, get_transaction,
    create_transaction_async, create_transaction.
  repeat split.
  - apply make_async_request_sync.
  - apply Hdecode.
  - destruct (validate_address address); cbn [negb];
      [apply Hdecode | reflexivity].
  - destruct (validate_address address); cbn [negb];
      [apply make_async_request_sync | reflexivity].
  - apply Hdecode.
  - destruct (validate_address (format_address (to request))); cbn [negb];
      [|reflexivity].
    destruct (validate_amount (amount request)); cbn [negb];
      [apply Hdecode | reflexivity].
Qed.

End FacadeFacts.

Lemma invalid_address_fails_before_dispatch_witness :
  get_account starts_with_PAR (@Ok json) refusing EmptyString
    (start default_config)
  = (Raise (ValidationError "Invalid address format"), start default_config, [])
  /\ create_transaction starts_with_PAR (fun _ => true) (fun s => s) (@Ok json)
       refusing (transfer_to "0xdeadbeef") (start default_config)
     = (Raise (ValidationError "Invalid recipient address"),
        start default_config, []).
Proof.
  destruct (invalid_address_fails_before_dispatch starts_with_PAR
              (fun _ => true) (fun s => s) (@Ok json) (@Ok json) refusing
              EmptyString (transfer_to "0xdeadbeef") (start default_config)
              eq_refl eq_refl)
    as (Haccount & _ & _ & _ & Hcreate & _).
  split; [exact Haccount | exact Hcreate].
Defined.

(** C8, as stated, fails: [send_signed_transaction] is a synchronous facade
    operation and the class defines no [send_signed_transaction_async]; the
    same holds for ten more operations. *)
Lemma send_signed_transaction_has_no_twin :
  In "send_signed_transaction" sync_operations
  /\ has_async_twin "send_signed_transaction" = false
  /\ filter (fun name => negb (has_async_twin name)) sync_operations
     = ["send_signed_transaction"; "estimate_fee"; "get_transactions";
        "get_latest_block"; "get_block"; "create_ml_task"; "get_ml_task";
        "get_ml_tasks"; "create_proposal"; "get_proposal"; "vote"].
Proof.
  repeat split; try reflexivity.
  unfold sync_operations. simpl. tauto.
Qed.

(** ** Client construction *)

(** C9, as stated, fails: a configuration with a retry count of -1, and a
    dict that sets the quota to 0, are both accepted, and the clients built
    from them break the bounds. *)
Lemma init_accepts_out_of_bounds_config :
  ParadigmClient__init__ "v1" (OfConfig negative_retries_config)
  = Ok (client_with_config "v1" negative_retries_config)
  /\ ~ config_invariant (config (client_with_config "v1" negative_retries_config))
  /\ (exists client,
         ParadigmClient__init__ "v1" (OfDict zero_quota_dict) = Ok client
         /\ rate_limit_requests (config client) = 0
         /\ requests (_rate_limiter client) = 0
         /\ ~ config_invariant (config client)).
Proof.
  split; [reflexivity|]. split.
  - intros (Hretries & _). vm_compute in Hretries. apply Hretries. reflexivity.
  - eexists. split; [reflexivity|]. repeat split.
    intros (_ & _ & Hquota & _). vm_compute in Hquota. discriminate Hquota.
Qed.

(** C9, amended: [ParadigmClient.__init__] checks no bound.  It keeps a
    [ClientConfig] as given, and expands a dict with the defaults of the
    dataclass (timeout 30.0, retries 3, quota 100, window 60) for the keys
    left out; the rate limiter and the HTTP clients are built from those
    values.  The client therefore satisfies the bounds exactly when the
    values supplied do. *)
Theorem init_keeps_supplied_config
    (API_VERSION : string) (arg : config_arg) (client : ParadigmClient) :
  ParadigmClient__init__ API_VERSION arg = Ok client ->
  match arg with
  | OfConfig c => config client = c
  | OfDict d =>
      retries (config client) = or_default (d_retries d) 3
      /\ timeout (config client) = or_default (d_timeout d) 30%Q
      /\ rate_limit_requests (config client)
         = or_default (d_rate_limit_requests d) 100
      /\ rate_limit_window (config client)
         = or_default (d_rate_limit_window d) 60
  end
  /\ requests (_rate_limiter client) = rate_limit_requests (config client)
  /\ window (_rate_limiter client) = rate_limit_window (config client)
  /\ calls (_rate_limiter client) = []
  /\ client_timeout (_client client) = timeout (config client)
  /\ (config_invariant (config client) <-> supplied_invariant arg).
Proof.
  intros Hinit. unfold ParadigmClient__init__ in Hinit.
  destruct arg as [c|d]; cbn [rbind] in Hinit.
  - injection Hinit as <-.
    unfold config_invariant, supplied_invariant. cbn.
    split; [repeat split; reflexivity|].
    repeat (split; [reflexivity|]).
    split; intros (Hretries & Htimeout & Hquota & Hwindow);
      repeat split; assumption.
  - unfold ClientConfig_of_dict in Hinit.
    destruct (d_other_keys d); [|discriminate Hinit].
    destruct (d_base_url d); [|discriminate Hinit].
    cbn [rbind] in Hinit. injection Hinit as <-.
    unfold config_invariant, supplied_invariant. cbn.
    split; [repeat split; reflexivity|].
    repeat (split; [reflexivity|]).
    split; intros (Hretries & Htimeout & Hquota & Hwindow);
      repeat split; assumption.
Qed.

Lemma init_keeps_supplied_config_witness :
  exists client,
    ParadigmClient__init__ "v1" (OfDict default_dict) = Ok client
    /\ retries (config client) = 3
    /\ requests (_rate_limiter client) = 100
    /\ window (_rate_limiter client) = 60.
Proof.
  exists (client_with_config "v1" default_config).
  destruct (init_keeps_supplied_config "v1" (OfDict default_dict)
              (client := client_with_config "v1" default_config) eq_refl)
    as ((Hretries & _ & Hquota & Hwindow) & Hrequests & Hwin & _).
  repeat split.
Defined.

(** * Further properties *)

(** ** Response Interpreter *)

(** X1: for a status from 400 up other than 429 and a body that decodes to
    an object, [_handle_response] raises [ParadigmError] with the message
    and code of the ["error"] object, ["Unknown error"] and ["UNKNOWN"]
    standing in for what is absent, whatever ["success"] and ["data"] say;
    an ["error"] value that is not an object raises [AttributeError]. *)
Theorem error_status_raises_paradigm_error
    (response : Response) (fields : list (string * json)) :
  400 <= status_code response ->
  status_code response <> 429 ->
  json_body response = Decoded (JObj fields) ->
  _handle_response response =
    match lookup "error" fields with
    | None =>
        Raise (ParadigmError (JStr "Unknown error") (Some (JStr "UNKNOWN")))
    | Some (JObj err) =>
        Raise (ParadigmError
                 (or_default (lookup "message" err) (JStr "Unknown error"))
                 (Some (or_default (lookup "code" err) (JStr "UNKNOWN"))))
    | Some _ => Raise (AttributeError "get")
    end.
Proof.
  intros Hstatus Hnot429 Hbody. unfold _handle_response. rewrite Hbody.
  replace (status_code response =? 429) with false
    by (symmetry; apply Z.eqb_neq; exact Hnot429).
  replace (status_code response >=? 400) with true
    by (symmetry; rewrite Z.geb_leb; apply Z.leb_le; exact Hstatus).
  cbn [py_get rbind].
  destruct (lookup "error" fields) as [[| | | | |items|err]|]; reflexivity.
Qed.

Lemma error_status_raises_paradigm_error_witness :
  _handle_response response_503_empty
  = Raise (ParadigmError (JStr "Unknown error") (Some (JStr "UNKNOWN"))).
Proof.
  apply (error_status_raises_paradigm_error response_503_empty (fields := []));
    [simpl; lia | simpl; lia | reflexivity].
Defined.

(** X2: [_handle_response] returns a payload only for a status below 400
    and a body that decodes to an object whose ["success"] value is truthy;
    the payload is then the ["data"] value, or the empty mapping.  A status
    of 400 or more, a missing or falsy ["success"], or a body that is not an
    object never yields a payload. *)
Theorem payload_only_from_success_envelope
    (response : Response) (payload : json) :
  _handle_response response = Ok payload ->
  status_code response < 400
  /\ exists fields success,
       json_body response = Decoded (JObj fields)
       /\ lookup "success" fields = Some success
       /\ truthy success = true
       /\ payload = or_default (lookup "data" fields) (JObj []).
Proof.
  unfold _handle_response.
  destruct (json_body response) as [data| |e];
    [|discriminate|discriminate].
  destruct (status_code response =? 429); [discriminate|].
  destruct (status_code response >=? 400) eqn:Hstatus.
  - destruct data as [| | | | | |fields]; try discriminate.
    cbn [py_get rbind].
    destruct (lookup "error" fields) as [[| | | | | |err]|]; discriminate.
  - intros Hok. split.
    { rewrite Z.geb_leb in Hstatus. apply Z.leb_gt in Hstatus. exact Hstatus. }
    destruct data as [| | | | | |fields]; try discriminate Hok.
    cbn [py_get rbind] in Hok.
    destruct (lookup "success" fields) as [success|] eqn:Hsuccess.
    + destruct (truthy success) eqn:Htruthy; cbn [negb] in Hok.
      * exists fields, success. repeat split; try assumption.
        injection Hok as <-. reflexivity.
      * destruct (lookup "error" fields) as [[| | | | | |err]|]; discriminate Hok.
    + cbn [truthy negb] in Hok.
      destruct (lookup "error" fields) as [[| | | | | |err]|]; discriminate Hok.
Qed.

Lemma payload_only_from_success_envelope_witness :
  status_code response_success_only < 400
  /\ exists fields success,
       json_body response_success_only = Decoded (JObj fields)
       /\ lookup "success" fields = Some success
       /\ truthy success = true
       /\ JObj [] = or_default (lookup "data" fields) (JObj []).
Proof.
  exact (payload_only_from_success_envelope response_success_only eq_refl).
Defined.

(** X3: a body that decodes to something other than an object (a list, a
    string, a number, [null]) makes [_handle_response] raise
    [AttributeError] for every status but 429. *)
Theorem non_object_body_raises_attribute_error
    (response : Response) (data : json) :
  status_code response <> 429 ->
  json_body response = Decoded data ->
  (forall fields, data <> JObj fields) ->
  _handle_response response = Raise (AttributeError "get").
Proof.
  intros Hnot429 Hbody Hshape. unfold _handle_response. rewrite Hbody.
  replace (status_code response =? 429) with false
    by (symmetry; apply Z.eqb_neq; exact Hnot429).
  destruct data as [| | | | | |fields];
    try (destruct (status_code response >=? 400); reflexivity).
  now destruct (Hshape fields).
Qed.

Lemma non_object_body_raises_attribute_error_witness :
  _handle_response response_200_list = Raise (AttributeError "get").
Proof.
  apply (non_object_body_raises_attribute_error response_200_list
           (data := JArr []));
    [simpl; lia | reflexivity | intros fields; discriminate].
Defined.

(** X4: for a status below 400, an envelope whose ["success"] key is
    missing or whose value is falsy is a failure even when ["data"] is
    there: [_handle_response] raises [ParadigmError] with the message of the
    ["error"] object, or ["Request failed"], and with no code. *)
Theorem falsy_success_is_failure
    (response : Response) (fields : list (string * json)) :
  status_code response < 400 ->
  json_body response = Decoded (JObj fields) ->
  truthy (or_default (lookup "success" fields) (JBool false)) = false ->
  _handle_response response =
    match lookup "error" fields with
    | None => Raise (ParadigmError (JStr "Request failed") None)
    | Some (JObj err) =>
        Raise (ParadigmError
                 (or_default (lookup "message" err) (JStr "Request failed"))
                 None)
    | Some _ => Raise (AttributeError "get")
    end.
Proof.
  intros Hstatus Hbody Hfalsy. unfold _handle_response. rewrite Hbody.
  destruct (status_below_400 response Hstatus) as [-> ->].
  cbn [py_get rbind]. unfold or_default in Hfalsy.
  replace (truthy match lookup "success" fields with
                  | Some v => v
                  | None => JBool false
                  end) with false.
  cbn [negb].
  destruct (lookup "error" fields) as [[| | | | |items|err]|]; reflexivity.
Qed.

Lemma falsy_success_is_failure_witness :
  _handle_response response_data_only
  = Raise (ParadigmError (JStr "Request failed") None).
Proof.
  apply (falsy_success_is_failure response_data_only
           (fields := [("data", JObj [("height", JInt 7)])]));
    [simpl; lia | reflexivity | reflexivity].
Defined.

(** ** Request Dispatcher *)

Section DispatcherMore.

Variable remote : transport.

Lemma http_attempts_app (evs1 evs2 : list event) :
  http_attempts (evs1 ++ evs2) = (http_attempts evs1 + http_attempts evs2)%nat.
Proof.
  unfold http_attempts. now rewrite filter_app, length_app.
Qed.

Lemma sleeps_app (evs1 evs2 : list event) :
  sleeps (evs1 ++ evs2) = sleeps evs1 ++ sleeps evs2.
Proof.
  unfold sleeps. apply flat_map_app.
Qed.

(** The loop makes at most one attempt per index, the remote side receives
    each of them, and the client is left as it was. *)
Lemma make_request_loop_bound (req : Request) (attempts : list Z) :
  forall w,
    let x := _make_request_loop remote req attempts w in
    (http_attempts (events_of x) <= List.length attempts)%nat
    /\ sent (world_of x) = (sent w + http_attempts (events_of x))%nat
    /\ self (world_of x) = self w.
Proof.
  induction attempts as [|attempt rest IH]; intros w x; subst x.
  - cbn. repeat split; lia.
  - rewrite make_request_loop_step. cbv zeta.
    destruct (snd (remote req (sent w))) as [[d|d|d]|response].
    4: { cbn. repeat split; lia. }
    3: { cbn. repeat split; lia. }
    all: destruct (attempt =? _); [cbn; repeat split; lia|].
    all: match goal with
         | |- context [_make_request_loop _ _ _ ?w1] =>
             destruct (IH w1) as (Hcount & Hsent & Hself)
         end.
    all: cbn [outcome_of world_of events_of fst snd List.length].
    all: change (http_attempts (Requested req attempt :: Slept (inject_Z (2 ^ attempt))
                                  :: ?evs))
           with (S (http_attempts evs)) in *.
    all: repeat split;
      [ unfold http_attempts in *; cbn [filter is_request List.length]; lia
      | rewrite Hsent; unfold http_attempts; cbn [filter is_request List.length sent elapse received]; lia
      | rewrite Hself; reflexivity ].
Qed.

(** When the exchanges of attempts [first .. first + k - 1] fail with a
    connect or timeout error and the next one ends otherwise, the loop stops
    there with what that exchange gives. *)
Lemma make_request_loop_stops (req : Request) (k : nat) :
  forall (first n : nat) (w : world),
    (forall i, (i < k)%nat -> is_retryable (snd (remote req (sent w + i)%nat)) = true) ->
    is_retryable (snd (remote req (sent w + k)%nat)) = false ->
    Z.of_nat (first + k) <= retries (config (self w)) ->
    (k < n)%nat ->
    let x := _make_request_loop remote req (map Z.of_nat (seq first n)) w in
    outcome_of x = final_outcome (snd (remote req (sent w + k)%nat))
    /\ events_of x = failing_attempts req (Z.of_nat first) k
    /\ self (world_of x) = self w.
Proof.
  induction k as [|k IH]; intros first n w Hfail Hlast Hretries Hn x; subst x.
  - destruct n as [|n]; [lia|]. cbn [seq map].
    rewrite make_request_loop_step. cbv zeta.
    replace (sent w + 0)%nat with (sent w) in * by lia.
    destruct (snd (remote req (sent w))) as [[d|d|d]|response];
      try discriminate Hlast; repeat split.
  - destruct n as [|n]; [lia|]. cbn [seq map].
    rewrite make_request_loop_step. cbv zeta.
    pose proof (Hfail 0%nat ltac:(lia)) as Hnow. rewrite Nat.add_0_r in Hnow.
    destruct (snd (remote req (sent w))) as [[d|d|d]|response];
      try discriminate Hnow.
    all: replace (Z.of_nat first =? _) with false
           by (symmetry; apply Z.eqb_neq; lia).
    all: cbn [outcome_of world_of events_of fst snd failing_attempts].
    all: match goal with
         | |- context [_make_request_loop _ _ _ ?w1] =>
             destruct (IH (S first) n w1) as (Hout & Hevs & Hself)
         end.
    all: try (cbn [sent self elapse received]; lia).
    all: try (intros i Hi; cbn [sent elapse received];
              replace (S (sent w) + i)%nat with (sent w + S i)%nat by lia;
              apply Hfail; lia).
    all: try (cbn [sent elapse received];
              replace (S (sent w) + k)%nat with (sent w + S k)%nat by lia;
              exact Hlast).
    all: cbn [sent elapse received] in Hout;
      replace (S (sent w) + k)%nat with (sent w + S k)%nat in Hout by lia.
    all: repeat split;
      [ exact Hout
      | rewrite Hevs; replace (Z.of_nat first + 1) with (Z.of_nat (S first)) by lia;
        reflexivity
      | rewrite Hself; reflexivity ].
Qed.

Lemma sleeps_failing_delays (req : Request) (R : nat) :
  sleeps (failing_attempts req 0 R) = map inject_Z (backoff_delays R).
Proof.
  unfold backoff_delays. rewrite map_map. apply (sleeps_failing req R 0).
Qed.

Lemma total_backoff (R : nat) : total (backoff_delays R) = 2 ^ Z.of_nat R - 1.
Proof.
  unfold backoff_delays, total.
  induction R as [|R IH]; [reflexivity|].
  rewrite seq_S, map_app, fold_right_app. cbn [map fold_right Nat.add].
  rewrite Z.add_0_r.
  assert (Hshift : forall l a, fold_right Z.add a l = fold_right Z.add 0 l + a).
  { induction l as [|z l IHl]; intros a; cbn [fold_right]; [lia|].
    rewrite IHl. lia. }
  rewrite Hshift, IH. rewrite Nat2Z.inj_succ, Z.pow_succ_r by lia. lia.
Qed.

(** X5: when the first [k] exchanges of a call fail with a connect or
    timeout error, [k] being at most the retry count, and the next exchange
    is answered or fails otherwise, [_make_request] makes exactly [k + 1]
    attempts, sleeps [2 ^ i] seconds after attempt [i < k], and ends with
    what [_handle_response] makes of the answer, or with the other transport
    error.  For [k = 0]: an HTTP status error is never retried. *)
Theorem make_request_stops_at_first_answer
    (req : Request) (w : world) (k : nat) :
  0 < requests (_rate_limiter (self w)) ->
  Z.of_nat k <= retries (config (self w)) ->
  (forall i, (i < k)%nat -> is_retryable (snd (remote req (sent w + i)%nat)) = true) ->
  is_retryable (snd (remote req (sent w + k)%nat)) = false ->
  let x := _make_request remote req w in
  outcome_of x = final_outcome (snd (remote req (sent w + k)%nat))
  /\ events_of x = events_of (wait_if_needed w) ++ failing_attempts req 0 k
  /\ http_attempts (events_of x) = (k + 1)%nat
  /\ sleeps (failing_attempts req 0 k) = map inject_Z (backoff_delays k).
Proof.
  intros Hquota Hretries Hfail Hlast x. subst x.
  rewrite make_request_eq. cbv zeta.
  pose proof (wait_if_needed_returns w Hquota) as Hok.
  destruct (wait_if_needed_frame w) as (Hcfg & Hsent & _ & rest & Hevs & _ & Hrest).
  rewrite Hok, Hcfg. unfold py_range.
  destruct (@make_request_loop_stops req k 0%nat
              (Z.to_nat (retries (config (self w)) + 1))
              (world_of (wait_if_needed w)))
    as (Hout & Hloop & _).
  { intros i Hi. rewrite Hsent. now apply Hfail. }
  { rewrite Hsent. exact Hlast. }
  { rewrite Hcfg. lia. }
  { lia. }
  rewrite Hsent in Hout. change (Z.of_nat 0) with 0 in Hloop.
  cbn [outcome_of world_of events_of fst snd].
  repeat split.
  - exact Hout.
  - now rewrite Hloop.
  - rewrite Hloop, Hevs.
    change (LimiterEntered (clock w) :: rest)
      with ([LimiterEntered (clock w)] ++ rest).
    rewrite !http_attempts_app, Hrest, http_attempts_failing. cbn. lia.
  - apply sleeps_failing_delays.
Qed.


(** X6: whatever the remote side does, a call makes at most [retries + 1]
    HTTP attempts (none when the retry count is negative), the remote side
    receives exactly the attempts made, and the retry loop leaves the client
    as the rate limiter's routine left it. *)
Theorem make_request_attempts_bounded (req : Request) (w : world) :
  let x := _make_request remote req w in
  (http_attempts (events_of x) <= Z.to_nat (retries (config (self w)) + 1))%nat
  /\ sent (world_of x) = (sent w + http_attempts (events_of x))%nat
  /\ self (world_of x) = self (world_of (wait_if_needed w)).
Proof.
  cbv zeta. rewrite make_request_eq. cbv zeta.
  destruct (wait_if_needed_frame w) as (Hcfg & Hsent & _ & rest & Hevs & _ & Hrest).
  assert (Hlimiter : http_attempts (events_of (wait_if_needed w)) = 0%nat).
  { rewrite Hevs. exact Hrest. }
  destruct (outcome_of (wait_if_needed w)) as [u|e].
  - rewrite Hcfg.
    destruct (make_request_loop_bound req
                (py_range (retries (config (self w)) + 1))
                (world_of (wait_if_needed w)))
      as (Hcount & Hreceived & Hself).
    cbn [outcome_of world_of events_of fst snd].
    rewrite http_attempts_app, Hlimiter.
    assert (Hlen : List.length (py_range (retries (config (self w)) + 1))
                   = Z.to_nat (retries (config (self w)) + 1)).
    { unfold py_range. now rewrite length_map, length_seq. }
    rewrite Hlen in Hcount.
    repeat split.
    + cbn [Nat.add]. exact Hcount.
    + rewrite Hreceived, Hsent. reflexivity.
    + exact Hself.
  - cbn [outcome_of world_of events_of fst snd]. rewrite Hlimiter.
    repeat split; lia.
Qed.


(** X7: when every exchange fails with a connect or timeout error, the
    backoff delays that [_make_request] sleeps before raising
    [NetworkError] add up to [2 ^ retries - 1] seconds. *)
Theorem make_request_total_backoff (req : Request) (w : world) :
  0 <= retries (config (self w)) ->
  0 < requests (_rate_limiter (self w)) ->
  (forall n, is_retryable (snd (remote req n)) = true) ->
  let R := Z.to_nat (retries (config (self w))) in
  sleeps (events_of (_make_request remote req w))
  = sleeps (events_of (wait_if_needed w)) ++ map inject_Z (backoff_delays R)
  /\ total (backoff_delays R) = 2 ^ retries (config (self w)) - 1.
Proof.
  intros Hretries Hquota Hfail R.
  rewrite make_request_eq. cbv zeta.
  pose proof (wait_if_needed_returns w Hquota) as Hok.
  destruct (wait_if_needed_frame w) as (Hcfg & _).
  rewrite Hok, Hcfg. unfold py_range.
  replace (Z.to_nat (retries (config (self w)) + 1)) with (S R) by (subst R; lia).
  destruct (make_request_loop_all_fail remote req R Hfail 0 (world_of (wait_if_needed w)))
    as (_ & Hloop & _).
  { rewrite Hcfg. subst R. lia. }
  cbn [events_of snd]. change (Z.of_nat 0) with 0 in Hloop.
  split.
  - rewrite sleeps_app, Hloop, sleeps_failing_delays. reflexivity.
  - rewrite total_backoff. subst R. rewrite Z2Nat.id by lia. reflexivity.
Qed.


Lemma handle_response_error_kinds (response : Response) (e : exn) :
  _handle_response response = Raise e ->
  dispatch_error e = true \/ json_body response = DecodeRaised e.
Proof.
  unfold _handle_response.
  destruct (json_body response) as [data| |e'];
    [ | intros H; injection H as <-; left; reflexivity
      | intros H; injection H as <-; right; reflexivity ].
  intros H. left. revert H.
  destruct (status_code response =? 429);
    [intros H; injection H as <-; reflexivity|].
  destruct (status_code response >=? 400).
  - destruct data as [| | | | | |fields];
      try (intros H; injection H as <-; reflexivity).
    cbn [py_get rbind].
    destruct (lookup "error" fields) as [[| | | | | |err]|];
      intros H; injection H as <-; reflexivity.
  - destruct data as [| | | | | |fields];
      try (intros H; injection H as <-; reflexivity).
    cbn [py_get rbind].
    destruct (negb _); [|discriminate].
    destruct (lookup "error" fields) as [[| | | | | |err]|];
      intros H; injection H as <-; reflexivity.
Qed.

Lemma make_request_loop_error_kinds (req : Request) (attempts : list Z) :
  forall w e,
    outcome_of (_make_request_loop remote req attempts w) = Raise e ->
    dispatch_error e = true \/ raised_by_decoding remote req e.
Proof.
  induction attempts as [|attempt rest IH]; intros w e; [discriminate|].
  rewrite make_request_loop_step. cbv zeta.
  destruct (snd (remote req (sent w))) as [[d|d|d]|response] eqn:Hexchange;
    cbn [outcome_of fst].
  4: { intros Hraise. apply handle_response_error_kinds in Hraise.
       destruct Hraise as [Hkind|Hdecode]; [left; exact Hkind|].
       right. exists (sent w), response. split; assumption. }
  3: intros H; injection H as <-; left; reflexivity.
  all: destruct (attempt =? _); cbn [outcome_of fst];
    [intros H; injection H as <-; left; reflexivity | apply IH].
Qed.


End DispatcherMore.

Lemma make_request_stops_at_first_answer_witness :
  outcome_of (_make_request (refusing_once response_success_data)
                health_request (start default_config))
  = Ok (JObj [("height", JInt 7)])
  /\ http_attempts
       (events_of (_make_request (refusing_once response_success_data)
                     health_request (start default_config)))
     = 2%nat.
Proof.
  destruct (@make_request_stops_at_first_answer
              (refusing_once response_success_data) health_request
              (start default_config) 1%nat)
    as (Hout & _ & Hcount & _).
  - reflexivity.
  - vm_compute. discriminate.
  - intros i Hi. destruct i as [|i]; [reflexivity|lia].
  - reflexivity.
  - split; [exact Hout | exact Hcount].
Defined.

Lemma make_request_total_backoff_witness :
  sleeps (events_of (_make_request refusing health_request (start default_config)))
  = [1%Q; 2%Q; 4%Q]
  /\ total (backoff_delays 3) = 7.
Proof.
  destruct (make_request_total_backoff refusing health_request (start default_config))
    as (Hsleeps & Htotal).
  - vm_compute. discriminate.
  - reflexivity.
  - intros n. reflexivity.
  - split; [exact Hsleeps | exact Htotal].
Defined.


(** A reply to a first attempt whose body is not valid UTF-8: the
    [UnicodeDecodeError] of [response.json()] ends the call, without a
    retry. *)
Remark undecodable_reply_escapes_dispatch :
  outcome_of (_make_request (replying response_429_not_utf8) health_request
                (start default_config))
  = Raise (UnicodeDecodeError
             "'utf-8' codec can't decode byte 0xff in position 0: invalid start byte")
  /\ http_attempts
       (events_of (_make_request (replying response_429_not_utf8)
                     health_request (start default_config)))
     = 1%nat.
Proof. split; reflexivity. Qed.

(** ** Rate Limiter *)

Lemma Qlt_bool_iff (x y : Q) : Qlt_bool x y = true <-> (x < y)%Q.
Proof.
  unfold Qlt_bool. rewrite negb_true_iff. split.
  - intros Hle. apply Qnot_le_lt. intros Hyx.
    apply Qle_bool_iff in Hyx. congruence.
  - intros Hlt. destruct (Qle_bool y x) eqn:Hle; [|reflexivity].
    apply Qle_bool_iff in Hle. now apply Qlt_not_le in Hlt.
Qed.

Lemma live_calls_fresh (now : Q) (rl : RateLimiter) :
  Forall (fun t => (now - t < inject_Z (window rl))%Q) (live_calls now rl).
Proof.
  apply Forall_forall. intros t Hin. unfold live_calls in Hin.
  apply filter_In in Hin. now apply Qlt_bool_iff.
Qed.

Lemma Forall_filter_keeps {A} (P : A -> Prop) (f : A -> bool) (l : list A) :
  Forall P l -> Forall P (filter f l).
Proof.
  rewrite !Forall_forall. intros Hall x Hin.
  apply filter_In in Hin. now apply Hall.
Qed.

Lemma sorted_filter (f : Q -> bool) (l : list Q) :
  StronglySorted Qle l -> StronglySorted Qle (filter f l).
Proof.
  induction 1 as [|t l Hsorted IH Hhead]; cbn [filter]; [constructor|].
  destruct (f t); [|exact IH].
  constructor; [exact IH|]. now apply Forall_filter_keeps.
Qed.

Lemma sorted_snoc (l : list Q) (t : Q) :
  StronglySorted Qle l -> Forall (fun u => (u <= t)%Q) l ->
  StronglySorted Qle (l ++ [t]).
Proof.
  induction 1 as [|u l Hsorted IH Hhead]; intros Hbound; cbn [app].
  - repeat constructor.
  - inversion Hbound as [|? ? Hu Hrest]; subst.
    constructor; [now apply IH|].
    apply Forall_app. split; [exact Hhead|]. now constructor.
Qed.

(** X8: with a positive quota, a call of [wait_if_needed] that finds fewer
    live entries than the quota returns at once, and a call that finds the
    quota reached always sleeps, for [window - (now - oldest)] seconds,
    which is more than 0 and, when the oldest entry is not in the future, at
    most the window; in both cases it records the time it read on entry
    after the live entries. *)
Theorem limiter_sleeps_exactly_when_full (w : world) :
  let rl := _rate_limiter (self w) in
  let now := clock w in
  let kept := live_calls now rl in
  0 < requests rl ->
  (Z.of_nat (List.length kept) < requests rl ->
   wait_if_needed w
   = (Ok tt, with_calls w (kept ++ [now]), [LimiterEntered now]))
  /\ (requests rl <= Z.of_nat (List.length kept) ->
      exists oldest rest,
        kept = oldest :: rest
        /\ let d := (inject_Z (window rl) - (now - oldest))%Q in
           (0 < d)%Q
           /\ ((oldest <= now)%Q -> (d <= inject_Z (window rl))%Q)
           /\ wait_if_needed w
              = (Ok tt, with_calls (elapse w d) (kept ++ [now]),
                 [LimiterEntered now; Slept d])).
Proof.
  intros rl now kept Hquota. rewrite wait_if_needed_eq. cbv zeta.
  fold rl. fold now. fold (live_calls now rl). fold kept.
  split.
  - intros Hunder.
    replace (Z.of_nat (List.length kept) >=? requests rl) with false
      by (symmetry; rewrite Z.geb_leb; apply Z.leb_gt; lia).
    reflexivity.
  - intros Hfull.
    replace (Z.of_nat (List.length kept) >=? requests rl) with true
      by (symmetry; rewrite Z.geb_leb; apply Z.leb_le; lia).
    pose proof (live_calls_fresh now rl) as Hfresh. fold kept in Hfresh.
    destruct kept as [|oldest rest]; [cbn in Hfull; lia|].
    exists oldest, rest. split; [reflexivity|]. cbv zeta.
    inversion Hfresh as [|? ? Hold _]; subst.
    assert (Hpos : (0 < inject_Z (window rl) - (now - oldest))%Q) by lra.
    split; [exact Hpos|]. split; [intros Hpast; lra|].
    apply Qlt_bool_iff in Hpos. rewrite Hpos. reflexivity.
Qed.

Lemma limiter_sleeps_exactly_when_full_witness :
  wait_if_needed (start strict_config)
  = (Ok tt, with_calls (start strict_config) [0%Q], [LimiterEntered 0])
  /\ exists oldest rest,
       live_calls 5 (_rate_limiter (self busy_world)) = oldest :: rest
       /\ (0 < 10 - (5 - oldest))%Q
       /\ ((oldest <= 5)%Q -> (10 - (5 - oldest) <= 10)%Q)
       /\ wait_if_needed busy_world
          = (Ok tt,
             with_calls (elapse busy_world (10 - (5 - oldest)))
               (live_calls 5 (_rate_limiter (self busy_world)) ++ [5%Q]),
             [LimiterEntered 5; Slept (10 - (5 - oldest))]).
Proof.
  split.
  - destruct (limiter_sleeps_exactly_when_full (start strict_config))
      as [Hunder _]; [reflexivity|].
    apply Hunder. reflexivity.
  - destruct (limiter_sleeps_exactly_when_full busy_world) as [_ Hfull];
      [reflexivity|].
    apply Hfull. vm_compute. discriminate.
Defined.

(** X9: with a quota of 0 or less and no live entry in the window, as on a
    new client, a call raises [IndexError] from the rate limiter and makes
    no HTTP attempt. *)
Theorem nonpositive_quota_raises_index_error
    (remote : transport) (req : Request) (w : world) :
  requests (_rate_limiter (self w)) <= 0 ->
  live_calls (clock w) (_rate_limiter (self w)) = [] ->
  _make_request remote req w
  = (Raise (IndexError "list index out of range"), with_calls w [],
     [LimiterEntered (clock w)]).
Proof.
  intros Hquota Hempty. rewrite make_request_eq, wait_if_needed_eq. cbv zeta.
  fold (live_calls (clock w) (_rate_limiter (self w))). rewrite Hempty.
  cbn [List.length Z.of_nat].
  replace (0 >=? requests (_rate_limiter (self w))) with true
    by (symmetry; rewrite Z.geb_leb; apply Z.leb_le; lia).
  reflexivity.
Qed.

Lemma nonpositive_quota_raises_index_error_witness :
  _make_request refusing health_request (start zero_quota_config)
  = (Raise (IndexError "list index out of range"),
     with_calls (start zero_quota_config) [],
     [LimiterEntered 0]).
Proof.
  apply (nonpositive_quota_raises_index_error refusing health_request
           (start zero_quota_config)).
  - vm_compute. discriminate.
  - reflexivity.
Defined.

(** X10: with a positive window, after a call of [wait_if_needed] every
    recorded timestamp, the new one included, is less than the window older
    than the time the call read on entry. *)
Theorem limiter_window_stays_fresh (w : world) :
  0 < window (_rate_limiter (self w)) ->
  window_fresh (clock w) (_rate_limiter (self (world_of (wait_if_needed w)))).
Proof.
  intros Hwindow. rewrite wait_if_needed_eq. cbv zeta.
  fold (live_calls (clock w) (_rate_limiter (self w))).
  pose proof (live_calls_fresh (clock w) (_rate_limiter (self w))) as Hfresh.
  assert (Hnew : Forall (fun t => (clock w - t < inject_Z (window (_rate_limiter (self w))))%Q)
                        (live_calls (clock w) (_rate_limiter (self w)) ++ [clock w])).
  { apply Forall_app. split; [exact Hfresh|]. constructor; [|constructor].
    assert (0 < inject_Z (window (_rate_limiter (self w))))%Q
      by (change 0%Q with (inject_Z 0); rewrite <- Zlt_Qlt; exact Hwindow).
    lra. }
  destruct (Z.of_nat _ >=? _).
  - destruct (live_calls _ _) as [|oldest rest] eqn:Hkept.
    + constructor.
    + destruct (Qlt_bool _ _); exact Hnew.
  - exact Hnew.
Qed.

Lemma limiter_window_stays_fresh_witness :
  window_fresh 5 (_rate_limiter (self (world_of (wait_if_needed busy_world)))).
Proof.
  apply (limiter_window_stays_fresh busy_world). reflexivity.
Defined.

(** X11: [wait_if_needed] keeps the recorded timestamps in the order they
    were taken, none of them after the present, so that the first entry is
    the oldest one. *)
Theorem limiter_keeps_window_ordered (w : world) :
  window_ordered w -> window_ordered (world_of (wait_if_needed w)).
Proof.
  intros [Hsorted Hpast]. rewrite wait_if_needed_eq. cbv zeta.
  fold (live_calls (clock w) (_rate_limiter (self w))).
  set (kept := live_calls (clock w) (_rate_limiter (self w))).
  assert (Hkept_sorted : StronglySorted Qle kept) by now apply sorted_filter.
  assert (Hkept_past : Forall (fun t => (t <= clock w)%Q) kept)
    by now apply Forall_filter_keeps.
  assert (Hnew_sorted : StronglySorted Qle (kept ++ [clock w]))
    by now apply sorted_snoc.
  assert (Hnew_past : Forall (fun t => (t <= clock w)%Q) (kept ++ [clock w])).
  { apply Forall_app. split; [exact Hkept_past|].
    constructor; [apply Qle_refl|constructor]. }
  destruct (Z.of_nat _ >=? _); [|split; assumption].
  destruct kept as [|oldest rest] eqn:Hkept.
  - split; constructor.
  - destruct (Qlt_bool _ _) eqn:Hsleep; [|split; assumption].
    apply Qlt_bool_iff in Hsleep.
    split; [exact Hnew_sorted|].
    unfold world_of, with_calls, elapse.
    cbn [fst snd clock self _rate_limiter calls].
    eapply Forall_impl; [|exact Hnew_past].
    intros t Ht. cbn beta in *. rewrite Qred_correct. lra.
Qed.

Lemma limiter_keeps_window_ordered_witness :
  window_ordered (world_of (wait_if_needed busy_world)).
Proof.
  apply (@limiter_keeps_window_ordered busy_world).
  split; repeat constructor; vm_compute; discriminate.
Defined.

(** X12: the blocking and the suspending routine keep one account: a
    sequence of limiter calls returns at the same times and leaves the same
    window whichever routine each call uses; only the kind of sleep
    differs. *)
Theorem limiter_paths_share_window (script : list (Q * limiter_path)) :
  forall w,
    sync_view (run_limiter script w) = run_limiter (all_blocking script) w.
Proof.
  induction script as [|[gap p] rest IH]; intros w; [reflexivity|].
  cbn [run_limiter all_blocking map fst].
  apply bind_sync_view; [reflexivity|]. intros _ w1.
  apply bind_sync_view.
  - intros w2. destruct p; cbn [enter_limiter].
    + rewrite wait_if_needed_eq. cbv zeta.
      destruct (Z.of_nat _ >=? _); [|reflexivity].
      destruct (filter _ _) as [|oldest kept]; [reflexivity|].
      destruct (Qlt_bool _ _); reflexivity.
    + apply async_wait_if_needed_sync.
  - intros _ w2. apply bind_sync_view; [reflexivity|]. intros passed w3.
    apply bind_sync_view; [apply IH|]. reflexivity.
Qed.

(** ** Client construction and the API key *)

Lemma get_header_filter_other (name other : string)
    (headers : list (string * string)) :
  other <> name ->
  get_header other (filter (fun kv => negb (String.eqb (fst kv) name)) headers)
  = get_header other headers.
Proof.
  intros Hother. induction headers as [|[k v] rest IH]; [reflexivity|].
  cbn [filter fst get_header].
  destruct (String.eqb k name) eqn:Hk; cbn [negb get_header].
  - apply String.eqb_eq in Hk. subst k.
    replace (String.eqb name other) with false
      by (symmetry; apply String.eqb_neq; congruence).
    exact IH.
  - destruct (String.eqb k other); [reflexivity|exact IH].
Qed.

Lemma get_set_header_same (name value : string)
    (headers : list (string * string)) :
  get_header name (set_header name value headers) = Some value.
Proof.
  induction headers as [|[k v] rest IH]; cbn [set_header get_header].
  - now rewrite String.eqb_refl.
  - destruct (String.eqb k name) eqn:Hk; cbn [get_header]; rewrite Hk;
      [reflexivity|exact IH].
Qed.

Lemma get_set_header_other (name other value : string)
    (headers : list (string * string)) :
  other <> name ->
  get_header other (set_header name value headers) = get_header other headers.
Proof.
  intros Hother. induction headers as [|[k v] rest IH]; cbn [set_header get_header].
  - replace (String.eqb name other) with false
      by (symmetry; apply String.eqb_neq; congruence).
    reflexivity.
  - destruct (String.eqb k name) eqn:Hk; cbn [get_header].
    + apply String.eqb_eq in Hk. subst k.
      replace (String.eqb name other) with false
        by (symmetry; apply String.eqb_neq; congruence).
      now apply get_header_filter_other.
    + destruct (String.eqb k other); [reflexivity|exact IH].
Qed.

(** X14: after [set_api_key(key)] the configuration and both HTTP clients
    carry [key] as [X-API-Key], every other header reads as before, and
    nothing else changes: retry count, timeout, the rate limiter and its
    recorded window are untouched and no event is emitted. *)
Theorem set_api_key_updates_both_clients (key : string) (w : world) :
  let x := set_api_key key w in
  let c := self (world_of x) in
  api_key (config c) = Some key
  /\ get_header "X-API-Key" (client_headers (_client c)) = Some key
  /\ get_header "X-API-Key" (client_headers (_async_client c)) = Some key
  /\ (forall name,
         name <> "X-API-Key" ->
         get_header name (client_headers (_client c))
         = get_header name (client_headers (_client (self w)))
         /\ get_header name (client_headers (_async_client c))
            = get_header name (client_headers (_async_client (self w))))
  /\ retries (config c) = retries (config (self w))
  /\ timeout (config c) = timeout (config (self w))
  /\ _rate_limiter c = _rate_limiter (self w)
  /\ clock (world_of x) = clock w
  /\ events_of x = [].
Proof.
  cbv zeta. unfold set_api_key, with_header.
  cbn [world_of events_of fst snd self config _client _async_client
       _rate_limiter client_headers api_key with_api_key retries timeout clock].
  repeat split; try apply get_set_header_same;
    apply get_set_header_other; assumption.
Qed.

Lemma set_api_key_updates_both_clients_witness :
  get_header "X-API-Key"
    (client_headers (_client (self (world_of
       (set_api_key "rotated" (start keyed_config))))))
  = Some "rotated"
  /\ get_header "User-Agent"
       (client_headers (_async_client (self (world_of
          (set_api_key "rotated" (start keyed_config))))))
     = Some "Paradigm-SDK-Python/1.0.0".
Proof.
  destruct (set_api_key_updates_both_clients "rotated" (start keyed_config))
    as (_ & Hkey & _ & Hother & _).
  split; [exact Hkey|].
  destruct (Hother "User-Agent") as [_ Hasync]; [discriminate|].
  rewrite Hasync. reflexivity.
Defined.

(** X15: rotating the key of a new client gives the client that
    construction with that key gives: for a key that is not empty,
    [set_api_key(key)] on the client built from a configuration leaves the
    client that [__init__] builds from the same configuration with
    [api_key = key]. *)
Theorem set_api_key_agrees_with_init
    (API_VERSION key : string) (cfg : ClientConfig) (now : Q) (n : nat) :
  key <> EmptyString ->
  self (world_of (set_api_key key
                    (mkWorld now n (client_with_config API_VERSION cfg))))
  = client_with_config API_VERSION (with_api_key cfg (Some key)).
Proof.
  intros Hkey. destruct key as [|a key]; [now destruct Hkey|].
  unfold set_api_key, client_with_config, _setup_http_client, with_header,
    with_api_key.
  cbn [world_of fst snd self config _client _async_client _rate_limiter
       client_headers client_base_url client_timeout api_key base_url timeout
       rate_limit_requests rate_limit_window String.eqb negb].
  destruct (api_key cfg) as [[|b old]|]; reflexivity.
Qed.

Lemma set_api_key_agrees_with_init_witness :
  self (world_of (set_api_key "rotated" (start keyed_config)))
  = client_with_config "v1" (with_api_key keyed_config (Some "rotated")).
Proof.
  apply (set_api_key_agrees_with_init "v1" (key := "rotated") keyed_config 0 0).
  discriminate.
Defined.

(** ** Operations without validation, and pages *)

Section OperationFacts.

Variables TransactionT FeeEstimateT MLTaskT : Type.
Variable Transaction : json -> result TransactionT.
Variable FeeEstimate : json -> result FeeEstimateT.
Variable MLTask : json -> result MLTaskT.
Variable remote : transport.

(** With a positive quota and a retry count of 0 or more, the first thing a
    call does after the rate limiter is attempt 0. *)
Lemma make_request_first_attempt (req : Request) (w : world) :
  0 < requests (_rate_limiter (self w)) ->
  0 <= retries (config (self w)) ->
  exists rest,
    events_of (_make_request remote req w)
    = events_of (wait_if_needed w) ++ Requested req 0 :: rest.
Proof.
  intros Hquota Hretries. rewrite make_request_eq. cbv zeta.
  rewrite (wait_if_needed_returns w Hquota).
  destruct (wait_if_needed_frame w) as (Hcfg & _). rewrite Hcfg.
  unfold py_range.
  destruct (Z.to_nat (retries (config (self w)) + 1)) as [|n] eqn:Hn; [lia|].
  cbn [seq map Z.of_nat events_of snd].
  rewrite make_request_loop_step. cbv zeta.
  destruct (snd (remote req _)) as [[d|d|d]|response];
    try (eexists; reflexivity).
  all: destruct (0 =? _); eexists; reflexivity.
Qed.

(** When the first exchange of a call is answered, the call ends with what
    [_handle_response] makes of the answer. *)
Lemma make_request_answered (req : Request) (w : world) (response : Response) :
  0 < requests (_rate_limiter (self w)) ->
  0 <= retries (config (self w)) ->
  snd (remote req (sent w)) = Replied response ->
  outcome_of (_make_request remote req w) = _handle_response response
  /\ http_attempts (events_of (_make_request remote req w)) = 1%nat.
Proof.
  intros Hquota Hretries Hreply. rewrite make_request_eq. cbv zeta.
  rewrite (wait_if_needed_returns w Hquota).
  destruct (wait_if_needed_frame w) as (Hcfg & Hsent & _ & rest & Hevs & _ & Hrest).
  rewrite Hcfg. unfold py_range.
  destruct (Z.to_nat (retries (config (self w)) + 1)) as [|n] eqn:Hn; [lia|].
  cbn [seq map Z.of_nat]. rewrite make_request_loop_step. cbv zeta.
  rewrite Hsent, Hreply. cbn [outcome_of world_of events_of fst snd].
  split; [reflexivity|].
  rewrite Hevs.
  change (LimiterEntered (clock w) :: rest) with ([LimiterEntered (clock w)] ++ rest).
  rewrite !http_attempts_app, Hrest. reflexivity.
Qed.

Lemma events_of_decoded {A} (call : M json) (decode : json -> result A)
    (w : world) :
  events_of ((data <- call ;; lift (decode data)) w) = events_of (call w).
Proof.
  unfold bind, lift. destruct (call w) as [[[data|e] w1] evs]; cbn;
    [apply app_nil_r|reflexivity].
Qed.

Lemma events_of_paged {T} (call : M json) (decode : json -> result T)
    (w : world) :
  paged_events (paged call decode w) = events_of (call w).
Proof.
  unfold paged. destruct (call w) as [[[data|e] w1] evs]; reflexivity.
Qed.

(** X16: [estimate_fee] and [get_transactions] check neither the recipient
    nor the amount nor the address: with a positive quota and a retry count
    of 0 or more, for every request and every address they pass the rate
    limiter and send the request, the address as part of the path. *)
Theorem unvalidated_operations_dispatch
    (request : CreateTransactionRequest) (page page_size : Z) (address : string)
    (w : world) :
  0 < requests (_rate_limiter (self w)) ->
  0 <= retries (config (self w)) ->
  address <> EmptyString ->
  (exists rest,
      events_of (estimate_fee FeeEstimate remote request w)
      = events_of (wait_if_needed w)
        ++ Requested (mkRequest "POST" "/transactions/estimate-fee" None
                        (Some (__dict__ request))) 0 :: rest)
  /\ (exists rest,
         paged_events (get_transactions Transaction remote page page_size
                         (Some address) w)
         = events_of (wait_if_needed w)
           ++ Requested (mkRequest "GET"
                           ("/addresses/" +s+ address +s+ "/transactions")
                           (Some (JObj [("page", JInt page);
                                        ("page_size", JInt page_size)]))
                           None) 0 :: rest).
Proof.
  intros Hquota Hretries Haddress. split.
  - unfold estimate_fee. rewrite events_of_decoded.
    now apply make_request_first_attempt.
  - unfold get_transactions. cbv zeta. rewrite events_of_paged.
    unfold transactions_endpoint, given, page_params.
    destruct address as [|a address]; [now destruct Haddress|].
    cbn [String.eqb]. now apply make_request_first_attempt.
Qed.

Lemma decode_all_ok {T} (decode : json -> result T) (elements : list json)
    (decoded : list T) :
  Forall2 (fun item t => decode item = Ok t) elements decoded ->
  decode_all decode elements = Return decoded.
Proof.
  induction 1 as [|item t elements decoded Hitem _ IH]; [reflexivity|].
  cbn [decode_all]. rewrite Hitem, IH. reflexivity.
Qed.

Lemma build_page_ok {T} (decode : json -> result T)
    (fields : list (string * json)) (elements : list json) (decoded : list T)
    (count pg size pages next prev : json) :
  lookup "items" fields = Some (JArr elements) ->
  Forall2 (fun item t => decode item = Ok t) elements decoded ->
  lookup "total_count" fields = Some count ->
  lookup "page" fields = Some pg ->
  lookup "page_size" fields = Some size ->
  lookup "total_pages" fields = Some pages ->
  lookup "has_next" fields = Some next ->
  lookup "has_prev" fields = Some prev ->
  build_page decode (JObj fields)
  = Return (mkPaginatedResponse decoded count pg size pages next prev).
Proof.
  intros Hitems Hdecoded Hcount Hpg Hsize Hpages Hnext Hprev.
  unfold build_page. cbn [py_subscript].
  rewrite Hitems, Hcount, Hpg, Hsize, Hpages, Hnext, Hprev.
  cbn [obind py_iter]. rewrite (@decode_all_ok _ decode _ _ Hdecoded). reflexivity.
Qed.


(** X18: when the first exchange is answered and the payload that
    [_handle_response] returns is an object without [items], as is the empty
    mapping returned for an envelope without [data], [get_transactions] and
    [get_ml_tasks] raise [KeyError('items')] after that one attempt. *)
Theorem page_without_items_raises_key_error
    (page page_size : Z) (address status : option string) (w : world)
    (response : Response) (fields : list (string * json)) :
  0 < requests (_rate_limiter (self w)) ->
  0 <= retries (config (self w)) ->
  (forall req, snd (remote req (sent w)) = Replied response) ->
  _handle_response response = Ok (JObj fields) ->
  lookup "items" fields = None ->
  paged_outcome (get_transactions Transaction remote page page_size address w)
  = Throw (KeyError "items")
  /\ paged_outcome (get_ml_tasks MLTask remote page page_size status w)
     = Throw (KeyError "items")
  /\ http_attempts
       (paged_events
          (get_transactions Transaction remote page page_size address w))
     = 1%nat.
Proof.
  intros Hquota Hretries Hreply Hpayload Hitems.
  assert (Hpaged : forall T (decode : json -> result T) req,
             paged_outcome (paged (_make_request remote req) decode w)
             = Throw (KeyError "items")).
  { intros T decode req.
    destruct (make_request_answered req w Hquota Hretries (Hreply req))
      as [Hout _].
    unfold paged.
    destruct (_make_request remote req w) as [[r w1] evs].
    cbn [outcome_of paged_outcome fst] in *. rewrite Hout, Hpayload.
    unfold build_page. cbn [py_subscript]. rewrite Hitems. reflexivity. }
  unfold get_transactions, get_ml_tasks. cbv zeta.
  repeat split; try apply Hpaged.
  rewrite events_of_paged.
  now apply (make_request_answered _ w Hquota Hretries (Hreply _)).
Qed.

End OperationFacts.

Lemma unvalidated_operations_dispatch_witness :
  exists rest,
    paged_events (get_transactions (@Ok json) refusing 1 20 (Some "0xdeadbeef")
                    (start default_config))
    = events_of (wait_if_needed (start default_config))
      ++ Requested (mkRequest "GET" "/addresses/0xdeadbeef/transactions"
                      (Some (JObj [("page", JInt 1); ("page_size", JInt 20)]))
                      None) 0 :: rest.
Proof.
  destruct (unvalidated_operations_dispatch (@Ok json) (@Ok json) refusing
              (transfer_to "0xdeadbeef") 1 20 (address := "0xdeadbeef")
              (start default_config))
    as [_ Hlist].
  - reflexivity.
  - vm_compute. discriminate.
  - discriminate.
  - exact Hlist.
Defined.


Lemma page_without_items_raises_key_error_witness :
  paged_outcome (get_transactions (@Ok json) (replying response_success_only)
                   1 20 None (start default_config))
  = Throw (KeyError "items").
Proof.
  destruct (@page_without_items_raises_key_error json json (@Ok json) (@Ok json)
              (replying response_success_only) 1 20 None None
              (start default_config) response_success_only [])
    as (Hlist & _).
  - reflexivity.
  - vm_compute. discriminate.
  - intros req. reflexivity.
  - reflexivity.
  - reflexivity.
  - exact Hlist.
Defined.

(** ** What the operations put on the wire *)

Section WireFacts.

Variables TransactionT BlockT MLTaskT ProposalT : Type.
Variable Transaction : json -> result TransactionT.
Variable Block : json -> result BlockT.
Variable MLTask : json -> result MLTaskT.
Variable Proposal : json -> result ProposalT.
Variables MLTaskRequest CreateProposalRequest : Type.
Variable ml_task_dict : MLTaskRequest -> json.
Variable proposal_dict : CreateProposalRequest -> json.
Variable remote : transport.

(** X20: the operations that have no check of their own send their
    arguments as they are.  With a positive quota and a retry count of 0 or
    more: [send_signed_transaction] posts the signed string unchanged,
    [get_block] puts the height in the path in decimal, negative or not,
    [get_ml_tasks] sends the [status] filter only when it is a non-empty
    string, [vote] posts the option, and the create operations post the
    [__dict__] of their request. *)
Theorem operations_send_arguments_as_given
    (signed task_id proposal_id choice status : string) (height page size : Z)
    (task : MLTaskRequest) (proposal : CreateProposalRequest) (w : world) :
  0 < requests (_rate_limiter (self w)) ->
  0 <= retries (config (self w)) ->
  status <> EmptyString ->
  sends w (events_of (send_signed_transaction Transaction remote signed w))
    (mkRequest "POST" "/transactions/send" None
       (Some (JObj [("signed_transaction", JStr signed)])))
  /\ sends w (events_of (get_latest_block Block remote w))
       (mkRequest "GET" "/blockchain/latest-block" None None)
  /\ sends w (events_of (get_block Block remote height w))
       (mkRequest "GET" ("/blockchain/blocks/" +s+ str_of_int height) None None)
  /\ sends w (events_of (create_ml_task MLTask ml_task_dict remote task w))
       (mkRequest "POST" "/ml-tasks" None (Some (ml_task_dict task)))
  /\ sends w (events_of (get_ml_task MLTask remote task_id w))
       (mkRequest "GET" ("/ml-tasks/" +s+ task_id) None None)
  /\ sends w (paged_events (get_ml_tasks MLTask remote page size (Some status) w))
       (mkRequest "GET" "/ml-tasks"
          (Some (JObj [("page", JInt page); ("page_size", JInt size);
                       ("status", JStr status)])) None)
  /\ sends w (paged_events (get_ml_tasks MLTask remote page size None w))
       (mkRequest "GET" "/ml-tasks"
          (Some (JObj [("page", JInt page); ("page_size", JInt size)])) None)
  /\ sends w (paged_events
                (get_ml_tasks MLTask remote page size (Some EmptyString) w))
       (mkRequest "GET" "/ml-tasks"
          (Some (JObj [("page", JInt page); ("page_size", JInt size)])) None)
  /\ sends w (events_of (create_proposal Proposal proposal_dict remote proposal w))
       (mkRequest "POST" "/governance/proposals" None
          (Some (proposal_dict proposal)))
  /\ sends w (events_of (get_proposal Proposal remote proposal_id w))
       (mkRequest "GET" ("/governance/proposals/" +s+ proposal_id) None None)
  /\ sends w (events_of (vote remote proposal_id choice w))
       (mkRequest "POST" ("/governance/proposals/" +s+ proposal_id +s+ "/vote")
          None (Some (JObj [("option", JStr choice)]))).
Proof.
  intros Hquota Hretries Hstatus.
  pose proof (fun req => make_request_first_attempt remote req w Hquota Hretries)
    as Hfirst.
  unfold sends, send_signed_transaction, get_latest_block, get_block,
    create_ml_task, get_ml_task, get_ml_tasks, create_proposal, get_proposal,
    vote.
  cbv zeta. rewrite !events_of_decoded, !events_of_paged.
  unfold ml_tasks_params, given, page_params.
  destruct status as [|a status]; [now destruct Hstatus|].
  cbn [String.eqb app].
  repeat split; try apply Hfirst.
  unfold bind, ret.
  destruct (Hfirst (mkRequest "POST"
                      ("/governance/proposals/" +s+ proposal_id +s+ "/vote")
                      None (Some (JObj [("option", JStr choice)]))))
    as [rest Hrest].
  destruct (_make_request remote _ w) as [[[data|e] w1] evs];
    cbn [events_of snd] in *; exists rest;
    [rewrite app_nil_r|]; exact Hrest.
Qed.

End WireFacts.

Lemma operations_send_arguments_as_given_witness :
  sends (start default_config)
    (events_of (get_block (@Ok json) refusing (-1) (start default_config)))
    (mkRequest "GET" "/blockchain/blocks/-1" None None).
Proof.
  destruct (@operations_send_arguments_as_given json json json json
              (@Ok json) (@Ok json) (@Ok json) (@Ok json) unit unit
              (fun _ => JNull) (fun _ => JNull) refusing
              "0xsigned" "task-1" "prop-1" "yes" "pending" (-1) 1 20 tt tt
              (start default_config))
    as (_ & _ & Hblock & _).
  - reflexivity.
  - vm_compute. discriminate.
  - discriminate.
  - exact Hblock.
Defined.
